(** * Epidemic projection for a closed facility: the SEIR engine

    A shallow embedding of the multi-group compartmental model
    ([simulateOneDay], [adjustPopulations], [getAllBracketCurves]) and the
    properties its specification states about it.

    Numbers.  The program computes with JavaScript numbers.  Here a finite
    number is an exact rational ([Q], compared with [==]); rounding and
    overflow of binary64 are outside the model.  With finite inputs the one
    operation of the program that can leave the finite numbers is the
    division by the total population in the exposure term, whose result the
    program tests with [Number.isFinite]; that division is modelled with
    explicit infinities and NaN ([JSNumber]).

    Arrays.  A JavaScript array is a list; the dense arrays of [ndarray]
    are nested lists read and written by index.  The horizon [numDays] is a
    natural number.

    The clock.  [getAllBracketCurves] reads [Date.now()] once; the model
    takes the calendar day it reads as the argument [today]. *)

From Stdlib Require Import QArith Qminmax ZArith List Bool Lia Lqa Setoid Morphisms
  Permutation.
Import ListNotations.
Open Scope Q_scope.

(* ------------------------------------------------------------------ *)
(** ** JavaScript numbers that may be non-finite *)

Module JSNumber.

Inductive number : Type :=
| Finite (q : Q)
| Infinity (negative : bool)
| NaN.

(** [Number.isFinite] *)
Definition isFinite (x : number) : bool :=
  match x with
  | Finite _ => true
  | _ => false
  end.

(** [a / b] on finite operands: a non-zero value over zero is an infinity,
    zero over zero is NaN (the sign of a zero divisor is not tracked: it only
    selects which infinity results). *)
Definition div (a b : Q) : number :=
  if Qeq_bool b 0 then
    if Qeq_bool a 0 then NaN else Infinity (negb (Qle_bool 0 a))
  else Finite (a / b).

(** [x + y] *)
Definition add (x y : number) : number :=
  match x, y with
  | Finite a, Finite b => Finite (a + b)
  | NaN, _ => NaN
  | _, NaN => NaN
  | Infinity s, Finite _ => Infinity s
  | Finite _, Infinity s => Infinity s
  | Infinity s, Infinity t => if Bool.eqb s t then Infinity s else NaN
  end.

(** The rational value of a finite number (0 for the others). *)
Definition finiteOrZero (x : number) : Q :=
  match x with
  | Finite q => q
  | _ => 0
  end.

End JSNumber.

(* ------------------------------------------------------------------ *)
(** ** Arrays *)

(** [d3.sum]: a left-to-right sum starting from zero. *)
Definition sum (l : list Q) : Q := fold_left Qplus l 0.

(** [d3.zip] of two arrays stops at the shorter one. *)
Definition zip {A B : Type} (l : list A) (l' : list B) : list (A * B) := combine l l'.

(** [arr.map((x, i) => f x i)] *)
Fixpoint mapi_from {A B : Type} (f : A -> nat -> B) (i : nat) (l : list A) : list B :=
  match l with
  | [] => []
  | x :: l' => f x i :: mapi_from f (S i) l'
  end.

Definition mapi {A B : Type} (f : A -> nat -> B) (l : list A) : list B :=
  mapi_from f 0 l.

(** [arr.forEach((x, i) => ...)] where the body updates a state. *)
Fixpoint forEach_from {A St : Type} (body : St -> A -> nat -> St) (i : nat) (l : list A) (s : St) : St :=
  match l with
  | [] => s
  | x :: l' => forEach_from body (S i) l' (body s x i)
  end.

Definition forEach {A St : Type} (body : St -> A -> nat -> St) (l : list A) (s : St) : St :=
  forEach_from body 0 l s.

(** [arr.filter((x, i) => keep x i)] *)
Fixpoint filteri_from {A : Type} (keep : A -> nat -> bool) (i : nat) (l : list A) : list A :=
  match l with
  | [] => []
  | x :: l' =>
      if keep x i then x :: filteri_from keep (S i) l' else filteri_from keep (S i) l'
  end.

Definition filteri {A : Type} (keep : A -> nat -> bool) (l : list A) : list A :=
  filteri_from keep 0 l.

(** [d3.range(n)] *)
Definition range (n : nat) : list nat := seq 0 n.

(** In-range replacement of the element at index [i]. *)
Fixpoint replace_at {A : Type} (i : nat) (v : A) (l : list A) : list A :=
  match l, i with
  | [], _ => []
  | _ :: l', O => v :: l'
  | x :: l', S i' => x :: replace_at i' v l'
  end.

(** [arr[i] = v] on a JavaScript array: inside the array the element is
    replaced; at or past the end the array grows (the skipped slots are
    holes, shown here as 0; the program never creates any). *)
Definition array_set (l : list Q) (i : nat) (v : Q) : list Q :=
  if (i <? length l)%nat then replace_at i v l
  else l ++ repeat 0 (i - length l) ++ [v].

(* ------------------------------------------------------------------ *)
(** ** Dense arrays of fixed shape ([ndarray]) *)

Module ndarray.

(** A 2-d array of shape [rows, cols], as the list of its rows. *)
Abbreviation array2 := (list (list Q)).

(** A 3-d array of shape [d1, d2, d3]. *)
Abbreviation array3 := (list (list (list Q))).

Definition zeros2 (rows cols : nat) : array2 := repeat (repeat 0 cols) rows.

Definition zeros3 (d1 d2 d3 : nat) : array3 := repeat (zeros2 d2 d3) d1.

Definition get2 (a : array2) (i j : nat) : Q := nth j (nth i a []) 0.

(** [a.set(i, j, v)]; the program only writes inside the shape, except
    for groups past the last one at initialisation and for a zero-day
    horizon, where the write lands outside every cell that is read back:
    here such a write changes nothing. *)
Definition set2 (a : array2) (i j : nat) (v : Q) : array2 :=
  replace_at i (replace_at j v (nth i a [])) a.

Definition get3 (a : array3) (i j k : nat) : Q := get2 (nth i a []) j k.

Definition set3 (a : array3) (i j k : nat) (v : Q) : array3 :=
  replace_at i (set2 (nth i a []) j k v) a.

Definition shape2 (a : array2) (rows cols : nat) : Prop :=
  length a = rows /\ Forall (fun r => length r = cols) a.

Definition shape3 (a : array3) (d1 d2 d3 : nat) : Prop :=
  length a = d1 /\ Forall (fun m => shape2 m d2 d3) a.

End ndarray.

(** Modelled from the spec: the helpers of [matrixUtils] (imported by the
    engine, not part of the sources at hand), which the specification
    treats as array primitives: a row view and a column view of a 2-d
    array, the values of a view as a plain array, and the write of a whole
    row. *)
Definition getRowView (a : ndarray.array2) (row : nat) : list Q := nth row a [].

Definition getColView (a : ndarray.array2) (col : nat) : list Q :=
  map (fun r => nth col r 0) a.

Definition getAllValues (view : list Q) : list Q := view.

Definition setRowValues (a : ndarray.array2) (row : nat) (values : list Q) : ndarray.array2 :=
  forEach (fun a v col => ndarray.set2 a row col v) values a.

(* ------------------------------------------------------------------ *)
(** ** Compartments and groups *)

Module seirIndex.

Inductive t : Type :=
| susceptible
| exposed
| infectious
| quarantined
| hospitalized
| icu
| hospitalRecovery
| fatalities
| recoveredMild
| recoveredHospitalized.

(** The numeric value of each member of the enumeration. *)
Definition index (c : t) : nat :=
  match c with
  | susceptible => 0
  | exposed => 1
  | infectious => 2
  | quarantined => 3
  | hospitalized => 4
  | icu => 5
  | hospitalRecovery => 6
  | fatalities => 7
  | recoveredMild => 8
  | recoveredHospitalized => 9
  end.

Definition __length : nat := 10.

End seirIndex.

Definition seirIndexList : list nat :=
  map seirIndex.index
    [seirIndex.susceptible; seirIndex.exposed; seirIndex.infectious;
     seirIndex.quarantined; seirIndex.hospitalized; seirIndex.icu;
     seirIndex.hospitalRecovery; seirIndex.fatalities;
     seirIndex.recoveredMild; seirIndex.recoveredHospitalized].

Module ageGroupIndex.

Inductive t : Type :=
| ageUnknown
| age0
| age20
| age45
| age55
| age65
| age75
| age85
| staff.

Definition index (g : t) : nat :=
  match g with
  | ageUnknown => 0
  | age0 => 1
  | age20 => 2
  | age45 => 3
  | age55 => 4
  | age65 => 5
  | age75 => 6
  | age85 => 7
  | staff => 8
  end.

Definition __length : nat := 9.

End ageGroupIndex.

(** [priorSimulation[seirIndex.c]] *)
Definition at_ (row : list Q) (c : seirIndex.t) : Q := nth (seirIndex.index c) row 0.

(* ------------------------------------------------------------------ *)
(** ** Model constants *)

Definition dIncubation : Q := 2.
Definition rExposedToInfectious : Q := 1 / dIncubation.

Definition pSymptomatic : Q := 0.821.
Definition dInfectious : Q := 5.1.
Definition rInfectiousToQuarantined : Q := pSymptomatic * (1 / dInfectious).

Definition dAsymptomaticInfectious : Q := 7.
Definition rInfectiousToRecovered : Q := (1 - pSymptomatic) * (1 / dAsymptomaticInfectious).

Definition pQuarantinedMild : Q := 0.74.
Definition dMildRecovery : Q := 9.9.
Definition rQuarantinedToRecovered : Q := pQuarantinedMild * (1 / dMildRecovery).

Definition dHospitalLag : Q := 2.9.
Definition rQuarantinedToHospitalized : Q := (1 - pQuarantinedMild) * (1 / dHospitalLag).

Definition pIcu : Q := 0.3.
Definition dIcuLag : Q := 2.
Definition rHospitalizedToIcu : Q := pIcu * (1 / dIcuLag).

Definition dHospitalized : Q := 22.

Definition dPostIcuRecovery : Q := 12.
Definition rHospitalRecoveryToRecovered : Q := 1 / dPostIcuRecovery.

Definition pIcuFatality : Q := 0.15.
Definition dIcuFatality : Q := 6.3.
Definition dIcuRecovery : Q := 5.
Definition rIcuToFatality : Q := pIcuFatality * (1 / dIcuFatality).
Definition rIcuToHospitalRecovery : Q := (1 - pIcuFatality) * (1 / dIcuRecovery).

Definition dHospitalizedFatality : Q := 8.3.

Definition populationAdjustmentRatio : Q := 0.0879.

Definition pInitiallyInfectious : Q := 0.57.
Definition pInitiallyQuarantined : Q := 0.253.
Definition pInitiallyHospitalized : Q := 0.041.
Definition pInitiallyIcu : Q := 0.012.
Definition pInitiallyHospitalRecovery : Q := 0.004.
Definition pInitiallyRecoveredMild : Q := 0.074.
Definition pInitiallyRecoveredHospitalized : Q := 0.045.
Definition pInitiallyDead : Q := 0.001.

(* ------------------------------------------------------------------ *)
(** ** The single-group daily transition *)

Module SingleDay.

(** [SimulationInputs & SingleDayInputs] *)
Record Inputs : Type := {
  facilityDormitoryPct : Q;
  pFatalityRate : Q;
  populationAdjustment : Q;
  priorSimulation : list Q;
  rateOfSpreadCells : Q;
  rateOfSpreadDorms : Q;
  simulateStaff : bool;
  totalInfectious : Q;
  totalPopulation : Q;
  totalSusceptibleIncarcerated : Q
}.

End SingleDay.

(** The value of the variable [susceptible] once the branch on
    [simulateStaff] has run: for the staff row it is the prior value, for
    the other rows the group's share of the population adjustment has been
    added ([totalSusceptibleIncarcerated ? ... : 0]). *)
Definition susceptibleAfterAdjustment (inputs : SingleDay.Inputs) : Q :=
  let susceptible := at_ (SingleDay.priorSimulation inputs) seirIndex.susceptible in
  if SingleDay.simulateStaff inputs then susceptible
  else
    susceptible +
    (if Qeq_bool (SingleDay.totalSusceptibleIncarcerated inputs) 0 then 0
     else SingleDay.populationAdjustment inputs *
          (susceptible / SingleDay.totalSusceptibleIncarcerated inputs)).

(** The value of [cSusceptible] before the [Number.isFinite] guard. *)
Definition newExposures (inputs : SingleDay.Inputs) : JSNumber.number :=
  let facilityDormitoryPct := SingleDay.facilityDormitoryPct inputs in
  let totalInfectious := SingleDay.totalInfectious inputs in
  let totalPopulation := SingleDay.totalPopulation inputs in
  let rSusceptibleToExposedCells := SingleDay.rateOfSpreadCells inputs / dInfectious in
  let rSusceptibleToExposedDorms := SingleDay.rateOfSpreadDorms inputs / dInfectious in
  let facilityCellsPct := 1 - facilityDormitoryPct in
  let susceptible := susceptibleAfterAdjustment inputs in
  if SingleDay.simulateStaff inputs then
    JSNumber.div (rSusceptibleToExposedCells * totalInfectious * susceptible)
                 totalPopulation
  else
    JSNumber.add
      (JSNumber.div
         (facilityCellsPct * rSusceptibleToExposedCells * totalInfectious * susceptible)
         totalPopulation)
      (JSNumber.div
         (facilityDormitoryPct * rSusceptibleToExposedDorms * totalInfectious * susceptible)
         totalPopulation).

(** The part of [simulateOneDay] after the guard on [cSusceptible]: the
    deltas of the ten compartments and the new row. *)
Definition simulateOneDayWith (inputs : SingleDay.Inputs) (cSusceptible : Q) : list Q :=
  let pFatalityRate := SingleDay.pFatalityRate inputs in
  let priorSimulation := SingleDay.priorSimulation inputs in
  let rHospitalizedToFatality := pFatalityRate * (1 / dHospitalizedFatality) in
  let pHospitalRecovery := 1 - pFatalityRate - pIcu in
  let rHospitalizedToRecovered := pHospitalRecovery * (1 / dHospitalized) in
  let susceptible := susceptibleAfterAdjustment inputs in
  let exposed := at_ priorSimulation seirIndex.exposed in
  let infectious := at_ priorSimulation seirIndex.infectious in
  let quarantined := at_ priorSimulation seirIndex.quarantined in
  let hospitalized := at_ priorSimulation seirIndex.hospitalized in
  let icu := at_ priorSimulation seirIndex.icu in
  let hospitalRecovery := at_ priorSimulation seirIndex.hospitalRecovery in
  let fatalities := at_ priorSimulation seirIndex.fatalities in
  let recoveredMild := at_ priorSimulation seirIndex.recoveredMild in
  let recoveredHospitalized := at_ priorSimulation seirIndex.recoveredHospitalized in
  let susceptibleDelta := - cSusceptible in
  let exposedDelta := cSusceptible - rExposedToInfectious * exposed in
  let infectiousDelta :=
    rExposedToInfectious * exposed -
    (rInfectiousToQuarantined + rInfectiousToRecovered) * infectious in
  let quarantinedDelta :=
    rInfectiousToQuarantined * infectious -
    (rQuarantinedToHospitalized + rQuarantinedToRecovered) * quarantined in
  let hospitalizedDelta :=
    rQuarantinedToHospitalized * quarantined -
    (rHospitalizedToIcu + rHospitalizedToRecovered) * hospitalized -
    rHospitalizedToFatality * hospitalized in
  let icuDelta :=
    rHospitalizedToIcu * hospitalized -
    rIcuToFatality * icu -
    rIcuToHospitalRecovery * icu in
  let hospitalRecoveryDelta :=
    rIcuToHospitalRecovery * icu -
    rHospitalRecoveryToRecovered * hospitalRecovery in
  let fatalitiesDelta :=
    rIcuToFatality * icu + rHospitalizedToFatality * hospitalized in
  let recoveredMildDelta :=
    rInfectiousToRecovered * infectious + rQuarantinedToRecovered * quarantined in
  let recoveredHospitalizedDelta :=
    rHospitalizedToRecovered * hospitalized +
    rHospitalRecoveryToRecovered * hospitalRecovery in
  [ Qmax (susceptible + susceptibleDelta) 0;
    exposed + exposedDelta;
    infectious + infectiousDelta;
    quarantined + quarantinedDelta;
    hospitalized + hospitalizedDelta;
    icu + icuDelta;
    hospitalRecovery + hospitalRecoveryDelta;
    fatalities + fatalitiesDelta;
    recoveredMild + recoveredMildDelta;
    recoveredHospitalized + recoveredHospitalizedDelta ].

(** [simulateOneDay(inputs)]: the exposure term, guarded by
    [Number.isFinite(cSusceptible) ? cSusceptible : 0], then the new row. *)
Definition simulateOneDay (inputs : SingleDay.Inputs) : list Q :=
  let cSusceptible := newExposures inputs in
  let cSusceptible :=
    if JSNumber.isFinite cSusceptible then JSNumber.finiteOrZero cSusceptible else 0 in
  simulateOneDayWith inputs cSusceptible.

(* ------------------------------------------------------------------ *)
(** ** Transmission intensities and turnover *)

(** Modelled from the spec: the type [RateOfSpread] of the
    spread-intensity selector and the type [PlannedReleases] are declared
    in [EpidemicModelContext], which is not part of the sources at hand: the
    selector is one of low, moderate and high, and a planned release is a
    record of an optional calendar date and an optional signed count.  A
    date is the number of its calendar day. *)
Inductive RateOfSpread : Type := low | moderate | high.

Record PlannedRelease : Type := {
  date : option Z;
  count : option Q
}.

Definition PlannedReleases : Type := list PlannedRelease.

Definition R0Cells (f : RateOfSpread) : Q :=
  match f with
  | low => 2.4
  | moderate => 3
  | high => 3.7
  end.

Definition R0Dorms (f : RateOfSpread) : Q :=
  match f with
  | low => 3
  | moderate => 5
  | high => 7
  end.

Definition rateOfSpreadCellsAdjustment : Q := 0.8.
Definition rateOfSpreadDormsAdjustment : Q := 1.7.

(** The two assignments [rateOfSpreadCells = ...] and
    [rateOfSpreadDorms = ...] of the driver: R0 adjusted for housing type
    and capacity. *)
Definition adjustedRateOfSpreadCells (rateOfSpreadFactor : RateOfSpread) (facilityOccupancyPct : Q) : Q :=
  let rateOfSpreadCells := R0Cells rateOfSpreadFactor in
  rateOfSpreadCells -
  (1 - facilityOccupancyPct) * (rateOfSpreadCells - rateOfSpreadCellsAdjustment).

Definition adjustedRateOfSpreadDorms (rateOfSpreadFactor : RateOfSpread) (facilityOccupancyPct : Q) : Q :=
  let rateOfSpreadDorms := R0Dorms rateOfSpreadFactor in
  rateOfSpreadDorms -
  (1 - facilityOccupancyPct) * (rateOfSpreadDorms - rateOfSpreadDormsAdjustment).

Definition adjustPopulations (ageGroupPopulations : list Q) (populationTurnover : Q) : list Q :=
  let adjustRate := populationTurnover * populationAdjustmentRatio in
  mapi (fun pop i =>
          if (i =? ageGroupIndex.index ageGroupIndex.staff)%nat then pop
          else pop + pop * adjustRate)
       ageGroupPopulations.

(* ------------------------------------------------------------------ *)
(** ** The projection driver *)

Module CurveProjection.

(** [CurveProjectionInputs] *)
Record Inputs : Type := {
  facilityDormitoryPct : Q;
  ageGroupPopulations : list Q;
  numDays : nat;
  ageGroupInitiallyInfected : list Q;
  facilityOccupancyPct : Q;
  rateOfSpreadFactor : RateOfSpread;
  plannedReleases : option PlannedReleases;
  populationTurnover : Q
}.

End CurveProjection.

Definition ageGroupFatalityRates : list Q :=
  [ 0.026; 0; 0.0015; 0.0065; 0.02; 0.038; 0.074; 0.1885; 0.026 ].

(** [updateProjectionDay(day, data)]: copy the daily state into the
    slice [day] of the grid, cell by cell. *)
Definition updateProjectionDay (projectionGrid : ndarray.array3) (day : nat)
    (data : ndarray.array2) : ndarray.array3 :=
  fold_left
    (fun grid bracket =>
       fold_left
         (fun grid compartment =>
            ndarray.set3 grid compartment day bracket
              (ndarray.get2 data bracket compartment))
         (range seirIndex.__length) grid)
    (range ageGroupIndex.__length) projectionGrid.

(** The body of the [forEach] that assigns people to initial states. *)
Definition assignInitialState (singleDayState : ndarray.array2) (entry : Q * Q)
    (index : nat) : ndarray.array2 :=
  let '(pop, cases) := entry in
  let ix := seirIndex.index in
  let exposed := cases * rExposedToInfectious in
  let s := ndarray.set2 singleDayState index (ix seirIndex.exposed) exposed in
  let s := ndarray.set2 s index (ix seirIndex.susceptible) (pop - cases - exposed) in
  let s := ndarray.set2 s index (ix seirIndex.infectious) (cases * pInitiallyInfectious) in
  let s := ndarray.set2 s index (ix seirIndex.quarantined) (cases * pInitiallyQuarantined) in
  let s := ndarray.set2 s index (ix seirIndex.hospitalized) (cases * pInitiallyHospitalized) in
  let s := ndarray.set2 s index (ix seirIndex.icu) (cases * pInitiallyIcu) in
  let s := ndarray.set2 s index (ix seirIndex.hospitalRecovery)
             (cases * pInitiallyHospitalRecovery) in
  let s := ndarray.set2 s index (ix seirIndex.recoveredMild)
             (cases * pInitiallyRecoveredMild) in
  let s := ndarray.set2 s index (ix seirIndex.recoveredHospitalized)
             (cases * pInitiallyRecoveredHospitalized) in
  ndarray.set2 s index (ix seirIndex.fatalities) (cases * pInitiallyDead).

Definition initialState (ageGroupPopulations ageGroupInitiallyInfected : list Q)
    : ndarray.array2 :=
  forEach assignInitialState
    (zip ageGroupPopulations ageGroupInitiallyInfected)
    (ndarray.zeros2 ageGroupIndex.__length seirIndex.__length).

(** [differenceInCalendarDays(dateLeft, dateRight)] on calendar-day numbers. *)
Definition differenceInCalendarDays (dateLeft dateRight : Z) : Z := (dateLeft - dateRight)%Z.

(** The body of [plannedReleases?.forEach(({ date, count }) => ...)].  A
    negative [dateIndex] passes the test against the length; the write
    then creates a property of the array object and leaves its elements as
    they are. *)
Definition applyPlannedRelease (today : Z) (expectedPopulationChanges : list Q)
    (release : PlannedRelease) : list Q :=
  match count release, date release with
  | Some count, Some date =>
      if Qeq_bool count 0 then expectedPopulationChanges
      else
        let dateIndex := differenceInCalendarDays date today in
        if (dateIndex <? Z.of_nat (length expectedPopulationChanges))%Z then
          if (0 <=? dateIndex)%Z then
            replace_at (Z.to_nat dateIndex)
              (nth (Z.to_nat dateIndex) expectedPopulationChanges 0 - count)
              expectedPopulationChanges
          else expectedPopulationChanges
        else expectedPopulationChanges
  | _, _ => expectedPopulationChanges
  end.

(** The expected population adjustments indexed by day. *)
Definition resolvePlannedReleases (today : Z) (numDays : nat)
    (plannedReleases : option PlannedReleases) : list Q :=
  let expectedPopulationChanges := repeat 0 numDays in
  match plannedReleases with
  | None => expectedPopulationChanges
  | Some releases => fold_left (applyPlannedRelease today) releases expectedPopulationChanges
  end.

Module Loop.

(** What the day loop reads and writes. *)
Record State : Type := {
  singleDayState : ndarray.array2;
  totalPopulationByDay : list Q;
  projectionGrid : ndarray.array3
}.

End Loop.

(** One turn of the [while (day < numDays)] loop. *)
Definition simulateDay (facilityDormitoryPct rateOfSpreadCells rateOfSpreadDorms : Q)
    (expectedPopulationChanges : list Q) (st : Loop.State) (day : nat) : Loop.State :=
  let singleDayState := Loop.singleDayState st in
  let totalInfectious :=
    sum (getAllValues (getColView singleDayState (seirIndex.index seirIndex.infectious))) in
  let totalSusceptibleIncarcerated :=
    sum (filteri (fun v i => negb (i =? ageGroupIndex.index ageGroupIndex.staff)%nat)
           (getAllValues (getColView singleDayState (seirIndex.index seirIndex.susceptible)))) in
  let totalPopulation := nth (day - 1) (Loop.totalPopulationByDay st) 0 in
  let singleDayState :=
    forEach
      (fun singleDayState rate ageGroup =>
         let projectionForAgeGroup :=
           simulateOneDay
             {| SingleDay.priorSimulation := getAllValues (getRowView singleDayState ageGroup);
                SingleDay.totalPopulation := totalPopulation;
                SingleDay.totalInfectious := totalInfectious;
                SingleDay.rateOfSpreadCells := rateOfSpreadCells;
                SingleDay.rateOfSpreadDorms := rateOfSpreadDorms;
                SingleDay.pFatalityRate := rate;
                SingleDay.facilityDormitoryPct := facilityDormitoryPct;
                SingleDay.simulateStaff :=
                  (ageGroup =? ageGroupIndex.index ageGroupIndex.staff)%nat;
                SingleDay.populationAdjustment := nth day expectedPopulationChanges 0;
                SingleDay.totalSusceptibleIncarcerated := totalSusceptibleIncarcerated |} in
         setRowValues singleDayState ageGroup projectionForAgeGroup)
      ageGroupFatalityRates singleDayState in
  let projectionGrid := updateProjectionDay (Loop.projectionGrid st) day singleDayState in
  let totalPopulationByDay :=
    array_set (Loop.totalPopulationByDay st) day
      (totalPopulation + nth day expectedPopulationChanges 0) in
  {| Loop.singleDayState := singleDayState;
     Loop.totalPopulationByDay := totalPopulationByDay;
     Loop.projectionGrid := projectionGrid |}.

Module Curves.

(** The object returned by [getAllBracketCurves]. *)
Record t : Type := {
  totalPopulationByDay : list Q;
  projectionGrid : ndarray.array3;
  expectedPopulationChanges : list Q
}.

End Curves.

(** [getAllBracketCurves(inputs)].  [today] is the calendar day of
    [Date.now()], which the program reads once; the loop runs for
    [day = 1 .. numDays - 1]. *)
Definition getAllBracketCurves (today : Z) (inputs : CurveProjection.Inputs) : Curves.t :=
  let ageGroupInitiallyInfected := CurveProjection.ageGroupInitiallyInfected inputs in
  let ageGroupPopulations := CurveProjection.ageGroupPopulations inputs in
  let facilityDormitoryPct := CurveProjection.facilityDormitoryPct inputs in
  let facilityOccupancyPct := CurveProjection.facilityOccupancyPct inputs in
  let numDays := CurveProjection.numDays inputs in
  let plannedReleases := CurveProjection.plannedReleases inputs in
  let populationTurnover := CurveProjection.populationTurnover inputs in
  let rateOfSpreadFactor := CurveProjection.rateOfSpreadFactor inputs in
  let projectionGrid :=
    ndarray.zeros3 (length seirIndexList) numDays ageGroupIndex.__length in
  let rateOfSpreadCells := adjustedRateOfSpreadCells rateOfSpreadFactor facilityOccupancyPct in
  let rateOfSpreadDorms := adjustedRateOfSpreadDorms rateOfSpreadFactor facilityOccupancyPct in
  let ageGroupPopulations := adjustPopulations ageGroupPopulations populationTurnover in
  let totalPopulationByDay := array_set (repeat 0 numDays) 0 (sum ageGroupPopulations) in
  let singleDayState := initialState ageGroupPopulations ageGroupInitiallyInfected in
  let expectedPopulationChanges := resolvePlannedReleases today numDays plannedReleases in
  let projectionGrid := updateProjectionDay projectionGrid 0 singleDayState in
  let final :=
    fold_left
      (simulateDay facilityDormitoryPct rateOfSpreadCells rateOfSpreadDorms
         expectedPopulationChanges)
      (seq 1 (numDays - 1))
      {| Loop.singleDayState := singleDayState;
         Loop.totalPopulationByDay := totalPopulationByDay;
         Loop.projectionGrid := projectionGrid |} in
  {| Curves.totalPopulationByDay := Loop.totalPopulationByDay final;
     Curves.projectionGrid := Loop.projectionGrid final;
     Curves.expectedPopulationChanges := expectedPopulationChanges |}.

(* ------------------------------------------------------------------ *)
(** ** The projection as a sequence of daily states

    The driver keeps one mutable daily state and copies it into the grid
    after each day.  The definitions below name what the loop computes, day
    by day, so that properties of the grid can be stated and proved by
    induction on the day; [grid_is_trajectory] relates them to the output
    of [getAllBracketCurves]. *)

(** The aggregates read from the daily state at the top of a loop turn. *)
Definition totalInfectiousOf (singleDayState : ndarray.array2) : Q :=
  sum (getAllValues (getColView singleDayState (seirIndex.index seirIndex.infectious))).

Definition totalSusceptibleIncarceratedOf (singleDayState : ndarray.array2) : Q :=
  sum (filteri (fun v i => negb (i =? ageGroupIndex.index ageGroupIndex.staff)%nat)
         (getAllValues (getColView singleDayState (seirIndex.index seirIndex.susceptible)))).

(** The argument of [simulateOneDay] for one group on one day. *)
Definition groupInputs (facilityDormitoryPct rateOfSpreadCells rateOfSpreadDorms : Q)
    (populationAdjustment totalPopulation : Q) (singleDayState : ndarray.array2)
    (rate : Q) (ageGroup : nat) : SingleDay.Inputs :=
  {| SingleDay.priorSimulation := getAllValues (getRowView singleDayState ageGroup);
     SingleDay.totalPopulation := totalPopulation;
     SingleDay.totalInfectious := totalInfectiousOf singleDayState;
     SingleDay.rateOfSpreadCells := rateOfSpreadCells;
     SingleDay.rateOfSpreadDorms := rateOfSpreadDorms;
     SingleDay.pFatalityRate := rate;
     SingleDay.facilityDormitoryPct := facilityDormitoryPct;
     SingleDay.simulateStaff := (ageGroup =? ageGroupIndex.index ageGroupIndex.staff)%nat;
     SingleDay.populationAdjustment := populationAdjustment;
     SingleDay.totalSusceptibleIncarcerated :=
       totalSusceptibleIncarceratedOf singleDayState |}.

(** The daily state after one loop turn: every group's row replaced by its
    transition, all computed from the prior state. *)
Definition nextState (facilityDormitoryPct rateOfSpreadCells rateOfSpreadDorms : Q)
    (populationAdjustment totalPopulation : Q) (singleDayState : ndarray.array2)
    : ndarray.array2 :=
  mapi (fun rate ageGroup =>
          simulateOneDay
            (groupInputs facilityDormitoryPct rateOfSpreadCells rateOfSpreadDorms
               populationAdjustment totalPopulation singleDayState rate ageGroup))
       ageGroupFatalityRates.

(** The daily state and the total population of day [day]. *)
Fixpoint trajectory (facilityDormitoryPct rateOfSpreadCells rateOfSpreadDorms : Q)
    (expectedPopulationChanges : list Q) (state0 : ndarray.array2) (total0 : Q)
    (day : nat) : ndarray.array2 * Q :=
  match day with
  | O => (state0, total0)
  | S prior =>
      let '(state, total) :=
        trajectory facilityDormitoryPct rateOfSpreadCells rateOfSpreadDorms
          expectedPopulationChanges state0 total0 prior in
      let adjustment := nth day expectedPopulationChanges 0 in
      (nextState facilityDormitoryPct rateOfSpreadCells rateOfSpreadDorms
         adjustment total state,
       total + adjustment)
  end.

(** The trajectory of a run of [getAllBracketCurves]. *)
Definition trajectoryOf (today : Z) (inputs : CurveProjection.Inputs) (day : nat)
    : ndarray.array2 * Q :=
  let populations :=
    adjustPopulations (CurveProjection.ageGroupPopulations inputs)
      (CurveProjection.populationTurnover inputs) in
  trajectory
    (CurveProjection.facilityDormitoryPct inputs)
    (adjustedRateOfSpreadCells (CurveProjection.rateOfSpreadFactor inputs)
       (CurveProjection.facilityOccupancyPct inputs))
    (adjustedRateOfSpreadDorms (CurveProjection.rateOfSpreadFactor inputs)
       (CurveProjection.facilityOccupancyPct inputs))
    (resolvePlannedReleases today (CurveProjection.numDays inputs)
       (CurveProjection.plannedReleases inputs))
    (initialState populations (CurveProjection.ageGroupInitiallyInfected inputs))
    (sum populations)
    day.



(** ** Planned releases, entry by entry *)

(** An entry the resolution skips as incomplete: no date, no count, or a
    zero count. *)
Definition incompleteRelease (release : PlannedRelease) : bool :=
  match count release, date release with
  | Some count, Some _ => Qeq_bool count 0
  | _, _ => true
  end.

(** The day offset of an entry that has a date. *)
Definition releaseOffset (today : Z) (release : PlannedRelease) : option Z :=
  match date release with
  | Some date => Some (differenceInCalendarDays date today)
  | None => None
  end.

(** The head count an entry takes from day [day]: its count when the
    entry is complete and its date resolves to that day, zero otherwise. *)
Definition releasedOn (today : Z) (day : nat) (release : PlannedRelease) : Q :=
  match count release, date release with
  | Some count, Some date =>
      if Qeq_bool count 0 then 0
      else if (differenceInCalendarDays date today =? Z.of_nat day)%Z then count
      else 0
  | _, _ => 0
  end.

(** The day-zero row of a group with (adjusted) population [pop] and
    [cases] initially infected: the values written by [assignInitialState],
    in the order of [seirIndex]. *)
Definition initialRow (pop cases : Q) : list Q :=
  let exposed := cases * rExposedToInfectious in
  [ pop - cases - exposed;
    exposed;
    cases * pInitiallyInfectious;
    cases * pInitiallyQuarantined;
    cases * pInitiallyHospitalized;
    cases * pInitiallyIcu;
    cases * pInitiallyHospitalRecovery;
    cases * pInitiallyDead;
    cases * pInitiallyRecoveredMild;
    cases * pInitiallyRecoveredHospitalized ].

(** The argument of [simulateOneDay] for group [g] in the loop turn of day
    [day] (from 1 on) of a run: the row and the aggregates come from the
    state of the day before. *)
Definition dayInputs (today : Z) (inputs : CurveProjection.Inputs) (day g : nat)
    : SingleDay.Inputs :=
  groupInputs
    (CurveProjection.facilityDormitoryPct inputs)
    (adjustedRateOfSpreadCells (CurveProjection.rateOfSpreadFactor inputs)
       (CurveProjection.facilityOccupancyPct inputs))
    (adjustedRateOfSpreadDorms (CurveProjection.rateOfSpreadFactor inputs)
       (CurveProjection.facilityOccupancyPct inputs))
    (nth day (resolvePlannedReleases today (CurveProjection.numDays inputs)
                (CurveProjection.plannedReleases inputs)) 0)
    (snd (trajectoryOf today inputs (day - 1)))
    (fst (trajectoryOf today inputs (day - 1)))
    (nth g ageGroupFatalityRates 0)
    g.

(** The susceptible people of the groups other than staff on one day of
    the output grid (the aggregate [totalSusceptibleIncarcerated] that the
    loop turn of the next day reads). *)
Definition susceptibleIncarcerated (grid : ndarray.array3) (day : nat) : Q :=
  sum (filteri (fun v i => negb (i =? ageGroupIndex.index ageGroupIndex.staff)%nat)
         (map (fun g => ndarray.get3 grid (seirIndex.index seirIndex.susceptible) day g)
            (range ageGroupIndex.__length))).

(** ** The trajectory in lowest terms

    The same trajectory with every value reduced to lowest terms at the end
    of each day: equal to [trajectory] as numbers ([trajectory_reduced]), and
    with numerators and denominators small enough to evaluate a run over
    several days. *)

Definition reduceState (state : ndarray.array2) : ndarray.array2 :=
  map (map Qred) state.

Fixpoint trajectoryReduced (facilityDormitoryPct rateOfSpreadCells rateOfSpreadDorms : Q)
    (expectedPopulationChanges : list Q) (state0 : ndarray.array2) (total0 : Q)
    (day : nat) : ndarray.array2 * Q :=
  match day with
  | O => (reduceState state0, Qred total0)
  | S prior =>
      let '(state, total) :=
        trajectoryReduced facilityDormitoryPct rateOfSpreadCells rateOfSpreadDorms
          expectedPopulationChanges state0 total0 prior in
      let adjustment := nth day expectedPopulationChanges 0 in
      (reduceState
         (nextState facilityDormitoryPct rateOfSpreadCells rateOfSpreadDorms
            adjustment total state),
       Qred (total + adjustment))
  end.

Definition trajectoryReducedOf (today : Z) (inputs : CurveProjection.Inputs) (day : nat)
    : ndarray.array2 * Q :=
  let populations :=
    adjustPopulations (CurveProjection.ageGroupPopulations inputs)
      (CurveProjection.populationTurnover inputs) in
  trajectoryReduced
    (CurveProjection.facilityDormitoryPct inputs)
    (adjustedRateOfSpreadCells (CurveProjection.rateOfSpreadFactor inputs)
       (CurveProjection.facilityOccupancyPct inputs))
    (adjustedRateOfSpreadDorms (CurveProjection.rateOfSpreadFactor inputs)
       (CurveProjection.facilityOccupancyPct inputs))
    (resolvePlannedReleases today (CurveProjection.numDays inputs)
       (CurveProjection.plannedReleases inputs))
    (initialState populations (CurveProjection.ageGroupInitiallyInfected inputs))
    (sum populations)
    day.

(** A configuration with another dormitory fraction and all else equal. *)
Definition withDormitoryPct (facilityDormitoryPct : Q) (inputs : CurveProjection.Inputs)
    : CurveProjection.Inputs :=
  {| CurveProjection.facilityDormitoryPct := facilityDormitoryPct;
     CurveProjection.ageGroupPopulations := CurveProjection.ageGroupPopulations inputs;
     CurveProjection.numDays := CurveProjection.numDays inputs;
     CurveProjection.ageGroupInitiallyInfected :=
       CurveProjection.ageGroupInitiallyInfected inputs;
     CurveProjection.facilityOccupancyPct := CurveProjection.facilityOccupancyPct inputs;
     CurveProjection.rateOfSpreadFactor := CurveProjection.rateOfSpreadFactor inputs;
     CurveProjection.plannedReleases := CurveProjection.plannedReleases inputs;
     CurveProjection.populationTurnover := CurveProjection.populationTurnover inputs |}.

(** The argument of the staff transition with another dormitory fraction. *)
Definition withHousing (facilityDormitoryPct : Q) (inputs : SingleDay.Inputs)
    : SingleDay.Inputs :=
  {| SingleDay.facilityDormitoryPct := facilityDormitoryPct;
     SingleDay.pFatalityRate := SingleDay.pFatalityRate inputs;
     SingleDay.populationAdjustment := SingleDay.populationAdjustment inputs;
     SingleDay.priorSimulation := SingleDay.priorSimulation inputs;
     SingleDay.rateOfSpreadCells := SingleDay.rateOfSpreadCells inputs;
     SingleDay.rateOfSpreadDorms := SingleDay.rateOfSpreadDorms inputs;
     SingleDay.simulateStaff := SingleDay.simulateStaff inputs;
     SingleDay.totalInfectious := SingleDay.totalInfectious inputs;
     SingleDay.totalPopulation := SingleDay.totalPopulation inputs;
     SingleDay.totalSusceptibleIncarcerated :=
       SingleDay.totalSusceptibleIncarcerated inputs |}.

(* ------------------------------------------------------------------ *)
(** ** Notions used by the proofs *)

(** A daily state has one row per group and one column per compartment. *)
Abbreviation stateShape st :=
  (ndarray.shape2 st ageGroupIndex.__length seirIndex.__length).

(** What holds after the loop turn of day [k]: the daily state is the
    state of day [k] of the trajectory, and the grid and the total
    population hold the trajectory up to day [k]. *)
Definition loopInvariantOf (dorm rc rd : Q) (changes : list Q)
    (state0 : ndarray.array2) (total0 : Q) (numDays : nat)
    (k : nat) (st : Loop.State) : Prop :=
  let traj := trajectory dorm rc rd changes state0 total0 in
  Loop.singleDayState st = fst (traj k) /\
  stateShape (Loop.singleDayState st) /\
  length (Loop.totalPopulationByDay st) = numDays /\
  (forall d, (d <= k)%nat -> nth d (Loop.totalPopulationByDay st) 0 = snd (traj d)) /\
  ndarray.shape3 (Loop.projectionGrid st) seirIndex.__length numDays
    ageGroupIndex.__length /\
  (forall d c g, (d <= k)%nat ->
     (c < seirIndex.__length)%nat -> (g < ageGroupIndex.__length)%nat ->
     ndarray.get3 (Loop.projectionGrid st) c d g = ndarray.get2 (fst (traj d)) g c).

(** No entry of the planned releases is complete. *)
Definition noPlannedRelease (inputs : CurveProjection.Inputs) : Prop :=
  match CurveProjection.plannedReleases inputs with
  | None => True
  | Some releases => forallb incompleteRelease releases = true
  end.

(** Rows of non-negative values. *)
Abbreviation nonneg := (Forall (fun x : Q => 0 <= x)).

(** Rows and states that are equal as numbers. *)
Abbreviation rowEq := (Forall2 Qeq).
Abbreviation stateEq := (Forall2 (Forall2 Qeq)).

(** Equal numbers, finite or not. *)
Inductive numberEq : JSNumber.number -> JSNumber.number -> Prop :=
| numberEq_finite a b : a == b -> numberEq (JSNumber.Finite a) (JSNumber.Finite b)
| numberEq_infinity s : numberEq (JSNumber.Infinity s) (JSNumber.Infinity s)
| numberEq_nan : numberEq JSNumber.NaN JSNumber.NaN.

(** Equal arguments of [simulateOneDay]. *)
Record inputsEq (a b : SingleDay.Inputs) : Prop := {
  eq_dormitory : SingleDay.facilityDormitoryPct a == SingleDay.facilityDormitoryPct b;
  eq_fatality : SingleDay.pFatalityRate a == SingleDay.pFatalityRate b;
  eq_adjustment : SingleDay.populationAdjustment a == SingleDay.populationAdjustment b;
  eq_prior : rowEq (SingleDay.priorSimulation a) (SingleDay.priorSimulation b);
  eq_cells : SingleDay.rateOfSpreadCells a == SingleDay.rateOfSpreadCells b;
  eq_dorms : SingleDay.rateOfSpreadDorms a == SingleDay.rateOfSpreadDorms b;
  eq_staff : SingleDay.simulateStaff a = SingleDay.simulateStaff b;
  eq_infectious : SingleDay.totalInfectious a == SingleDay.totalInfectious b;
  eq_population : SingleDay.totalPopulation a == SingleDay.totalPopulation b;
  eq_susceptible :
    SingleDay.totalSusceptibleIncarcerated a == SingleDay.totalSusceptibleIncarcerated b
}.

(* ------------------------------------------------------------------ *)
(** ** Configurations used as examples

    Group 2 is the age group 20-44 and group 8 the staff. *)

(** A release of 50 on day 20, an entry without a date and a release of
    10 on day 18; read on day 17 the release of 50 falls on day offset 3. *)
Definition releaseOnDayThree : CurveProjection.Inputs :=
  {| CurveProjection.facilityDormitoryPct := 0.5;
     CurveProjection.ageGroupPopulations := [0; 0; 1000; 0; 0; 0; 0; 0; 100];
     CurveProjection.numDays := 5;
     CurveProjection.ageGroupInitiallyInfected := [0; 0; 100; 0; 0; 0; 0; 0; 0];
     CurveProjection.facilityOccupancyPct := 1;
     CurveProjection.rateOfSpreadFactor := moderate;
     CurveProjection.plannedReleases :=
       Some [ {| date := None; count := Some 7 |};
              {| date := Some 20%Z; count := Some 50 |};
              {| date := Some 18%Z; count := Some 10 |} ];
     CurveProjection.populationTurnover := 0 |}.

(** A release of 50 dated day 1. *)
Definition releaseTomorrow : CurveProjection.Inputs :=
  {| CurveProjection.facilityDormitoryPct := 0.5;
     CurveProjection.ageGroupPopulations := [0; 0; 1000; 0; 0; 0; 0; 0; 100];
     CurveProjection.numDays := 2;
     CurveProjection.ageGroupInitiallyInfected := [0; 0; 100; 0; 0; 0; 0; 0; 0];
     CurveProjection.facilityOccupancyPct := 1;
     CurveProjection.rateOfSpreadFactor := moderate;
     CurveProjection.plannedReleases := Some [ {| date := Some 1%Z; count := Some 50 |} ];
     CurveProjection.populationTurnover := 0 |}.

(** One group of 1000 with 100 infected, for a given turnover. *)
Definition turnoverInputs (turnover : Q) : CurveProjection.Inputs :=
  {| CurveProjection.facilityDormitoryPct := 0.5;
     CurveProjection.ageGroupPopulations := [0; 0; 1000; 0; 0; 0; 0; 0; 0];
     CurveProjection.numDays := 1;
     CurveProjection.ageGroupInitiallyInfected := [0; 0; 100; 0; 0; 0; 0; 0; 0];
     CurveProjection.facilityOccupancyPct := 1;
     CurveProjection.rateOfSpreadFactor := moderate;
     CurveProjection.plannedReleases := None;
     CurveProjection.populationTurnover := turnover |}.


(** A group of 1000 with 100 infected and 100 staff, for a given
    dormitory fraction, over four days. *)
Definition housingInputs (dorm : Q) : CurveProjection.Inputs :=
  {| CurveProjection.facilityDormitoryPct := dorm;
     CurveProjection.ageGroupPopulations := [0; 0; 1000; 0; 0; 0; 0; 0; 100];
     CurveProjection.numDays := 4;
     CurveProjection.ageGroupInitiallyInfected := [0; 0; 100; 0; 0; 0; 0; 0; 0];
     CurveProjection.facilityOccupancyPct := 1;
     CurveProjection.rateOfSpreadFactor := moderate;
     CurveProjection.plannedReleases := None;
     CurveProjection.populationTurnover := 0 |}.

(** The same facility over two days. *)
Definition tenthInfected : CurveProjection.Inputs :=
  {| CurveProjection.facilityDormitoryPct := 0.5;
     CurveProjection.ageGroupPopulations := [0; 0; 1000; 0; 0; 0; 0; 0; 100];
     CurveProjection.numDays := 2;
     CurveProjection.ageGroupInitiallyInfected := [0; 0; 100; 0; 0; 0; 0; 0; 0];
     CurveProjection.facilityOccupancyPct := 1;
     CurveProjection.rateOfSpreadFactor := moderate;
     CurveProjection.plannedReleases := None;
     CurveProjection.populationTurnover := 0 |}.

(** A row of a facility whose total population is zero. *)
Definition emptyFacility : SingleDay.Inputs :=
  {| SingleDay.facilityDormitoryPct := 0.5;
     SingleDay.pFatalityRate := 0.026;
     SingleDay.populationAdjustment := 0;
     SingleDay.priorSimulation := [10; 4; 3; 2; 1; 0; 0; 0; 0; 0];
     SingleDay.rateOfSpreadCells := 3;
     SingleDay.rateOfSpreadDorms := 5;
     SingleDay.simulateStaff := false;
     SingleDay.totalInfectious := 3;
     SingleDay.totalPopulation := 0;
     SingleDay.totalSusceptibleIncarcerated := 10 |}.

(** Planned releases that are all incomplete. *)
Definition incompleteReleases : CurveProjection.Inputs :=
  {| CurveProjection.facilityDormitoryPct := 0.5;
     CurveProjection.ageGroupPopulations := [0; 0; 1000; 0; 0; 0; 0; 0; 100];
     CurveProjection.numDays := 30;
     CurveProjection.ageGroupInitiallyInfected := [0; 0; 100; 0; 0; 0; 0; 0; 0];
     CurveProjection.facilityOccupancyPct := 1;
     CurveProjection.rateOfSpreadFactor := moderate;
     CurveProjection.plannedReleases :=
       Some [ {| date := None; count := Some 7 |};
              {| date := Some 3%Z; count := None |};
              {| date := Some 4%Z; count := Some 0 |} ];
     CurveProjection.populationTurnover := 0 |}.

(* ------------------------------------------------------------------ *)
(** ** Further configurations and notions *)

(** A configuration with other planned releases and all else equal. *)
Definition withPlannedReleases (plannedReleases : option PlannedReleases)
    (inputs : CurveProjection.Inputs) : CurveProjection.Inputs :=
  {| CurveProjection.facilityDormitoryPct := CurveProjection.facilityDormitoryPct inputs;
     CurveProjection.ageGroupPopulations := CurveProjection.ageGroupPopulations inputs;
     CurveProjection.numDays := CurveProjection.numDays inputs;
     CurveProjection.ageGroupInitiallyInfected :=
       CurveProjection.ageGroupInitiallyInfected inputs;
     CurveProjection.facilityOccupancyPct := CurveProjection.facilityOccupancyPct inputs;
     CurveProjection.rateOfSpreadFactor := CurveProjection.rateOfSpreadFactor inputs;
     CurveProjection.plannedReleases := plannedReleases;
     CurveProjection.populationTurnover := CurveProjection.populationTurnover inputs |}.

(** The head count an entry takes from the projection as a whole: its
    count when the entry is complete and its date resolves to a day of the
    horizon, zero otherwise. *)
Definition releasedWithin (today : Z) (numDays : nat) (release : PlannedRelease) : Q :=
  match count release, date release with
  | Some count, Some date =>
      if Qeq_bool count 0 then 0
      else
        let dateIndex := differenceInCalendarDays date today in
        if ((0 <=? dateIndex) && (dateIndex <? Z.of_nat numDays))%Z then count else 0
  | _, _ => 0
  end.

(** Two adjustment sequences that agree from day 1 on. *)
Definition agreeFromDayOne (changes changes' : list Q) : Prop :=
  length changes = length changes' /\
  forall d, (1 <= d)%nat -> nth d changes 0 = nth d changes' 0.

(** The conditions under which a run keeps every value non-negative: one
    population and one infected count per group, infected counts that are
    non-negative and fit, with their exposed share, in the adjusted
    population, fractions in [0, 1], a total population that is never
    negative, and on each day an adjustment that is non-negative or releases
    at most the susceptible incarcerated population of the day before. *)
Record nonNegativeRun (today : Z) (inputs : CurveProjection.Inputs) : Prop := {
  run_populations :
    length (CurveProjection.ageGroupPopulations inputs) = ageGroupIndex.__length;
  run_cases :
    length (CurveProjection.ageGroupInitiallyInfected inputs) = ageGroupIndex.__length;
  run_cases_fit :
    Forall2 (fun pop cases => 0 <= cases /\ cases + cases * rExposedToInfectious <= pop)
      (adjustPopulations (CurveProjection.ageGroupPopulations inputs)
         (CurveProjection.populationTurnover inputs))
      (CurveProjection.ageGroupInitiallyInfected inputs);
  run_dormitory : 0 <= CurveProjection.facilityDormitoryPct inputs <= 1;
  run_occupancy : 0 <= CurveProjection.facilityOccupancyPct inputs <= 1;
  run_population :
    forall d, (d < CurveProjection.numDays inputs)%nat ->
      0 <= nth d (Curves.totalPopulationByDay (getAllBracketCurves today inputs)) 0;
  run_releases :
    forall d, (1 <= d < CurveProjection.numDays inputs)%nat ->
      0 <= nth d (Curves.expectedPopulationChanges
                    (getAllBracketCurves today inputs)) 0 \/
      0 <= susceptibleIncarcerated
             (Curves.projectionGrid (getAllBracketCurves today inputs)) (d - 1)
           + nth d (Curves.expectedPopulationChanges
                      (getAllBracketCurves today inputs)) 0
}.

(** The row of a group of [pop] people in which nobody has been
    infected. *)
Definition steadyRow (pop : Q) : list Q := [pop; 0; 0; 0; 0; 0; 0; 0; 0; 0].

(** The argument of a transition with a given prior row, no infectious
    person anywhere and no population adjustment. *)
Definition withoutInfection (row : list Q) (inputs : SingleDay.Inputs) : SingleDay.Inputs :=
  {| SingleDay.facilityDormitoryPct := SingleDay.facilityDormitoryPct inputs;
     SingleDay.pFatalityRate := SingleDay.pFatalityRate inputs;
     SingleDay.populationAdjustment := 0;
     SingleDay.priorSimulation := row;
     SingleDay.rateOfSpreadCells := SingleDay.rateOfSpreadCells inputs;
     SingleDay.rateOfSpreadDorms := SingleDay.rateOfSpreadDorms inputs;
     SingleDay.simulateStaff := SingleDay.simulateStaff inputs;
     SingleDay.totalInfectious := 0;
     SingleDay.totalPopulation := SingleDay.totalPopulation inputs;
     SingleDay.totalSusceptibleIncarcerated :=
       SingleDay.totalSusceptibleIncarcerated inputs |}.

(** A facility of 1000 incarcerated people and 100 staff in which nobody
    is infected. *)
Definition nobodyInfected : CurveProjection.Inputs :=
  {| CurveProjection.facilityDormitoryPct := 0.5;
     CurveProjection.ageGroupPopulations := [0; 0; 1000; 0; 0; 0; 0; 0; 100];
     CurveProjection.numDays := 3;
     CurveProjection.ageGroupInitiallyInfected := [0; 0; 0; 0; 0; 0; 0; 0; 0];
     CurveProjection.facilityOccupancyPct := 1;
     CurveProjection.rateOfSpreadFactor := high;
     CurveProjection.plannedReleases := None;
     CurveProjection.populationTurnover := 1 |}.

(** A configuration whose infected counts stop after the third group. *)
Definition shortInfectedList : CurveProjection.Inputs :=
  {| CurveProjection.facilityDormitoryPct := 0.5;
     CurveProjection.ageGroupPopulations := [0; 0; 1000; 0; 500; 0; 0; 0; 100];
     CurveProjection.numDays := 10;
     CurveProjection.ageGroupInitiallyInfected := [0; 0; 100];
     CurveProjection.facilityOccupancyPct := 1;
     CurveProjection.rateOfSpreadFactor := moderate;
     CurveProjection.plannedReleases := None;
     CurveProjection.populationTurnover := 0 |}.


(** A loop state on the eve of day 1: the initial state of a group of 1000
    with 100 infected and 100 staff, a grid of three days and a
    total-population sequence whose first entry is set. *)
Definition eveOfDayOne : Loop.State :=
  let state := initialState [0; 0; 1000; 0; 0; 0; 0; 0; 100] [0; 0; 100; 0; 0; 0; 0; 0; 0] in
  {| Loop.singleDayState := state;
     Loop.totalPopulationByDay := [1100; 0; 0];
     Loop.projectionGrid :=
       updateProjectionDay
         (ndarray.zeros3 seirIndex.__length 3 ageGroupIndex.__length) 0 state |}.


(** ** Scaling a configuration *)







(* ================================================================== *)
(** * Properties *)

(** ** Lists and arrays *)

Section ListFacts.
Context {A : Type}.
Implicit Types (l : list A) (i j : nat) (v d : A).

Lemma length_replace_at i v l : length (replace_at i v l) = length l.
Proof.
  revert i; induction l as [|x l IH]; intros [|i]; simpl; auto.
Qed.

Lemma nth_replace_at_eq i v l d :
  (i < length l)%nat -> nth i (replace_at i v l) d = v.
Proof.
  revert i; induction l as [|x l IH]; intros [|i]; simpl; intros H;
    try lia; auto.
  apply IH; lia.
Qed.

Lemma nth_replace_at_neq i j v l d :
  i <> j -> nth j (replace_at i v l) d = nth j l d.
Proof.
  revert i j; induction l as [|x l IH]; intros [|i] [|j] H; simpl; auto;
    try congruence.
Qed.

Lemma replace_at_outside i v l : (length l <= i)%nat -> replace_at i v l = l.
Proof.
  revert i; induction l as [|x l IH]; intros [|i]; simpl; intros H;
    try lia; auto.
  f_equal; apply IH; lia.
Qed.

Lemma replace_at_app i v (pre post : list A) old :
  length pre = i -> replace_at i v (pre ++ old :: post) = pre ++ v :: post.
Proof.
  revert i; induction pre as [|x pre IH]; intros i H; subst i; simpl; auto.
  f_equal; apply IH; reflexivity.
Qed.

Lemma replace_at_nth i l d : replace_at i (nth i l d) l = l.
Proof.
  revert i; induction l as [|x l IH]; intros [|i]; simpl; auto.
  f_equal; apply IH.
Qed.

Lemma replace_at_twice i v w l : replace_at i v (replace_at i w l) = replace_at i v l.
Proof.
  revert i; induction l as [|x l IH]; intros [|i]; simpl; auto.
  f_equal; apply IH.
Qed.

Lemma Forall_replace_at (P : A -> Prop) i v l :
  Forall P l -> P v -> Forall P (replace_at i v l).
Proof.
  intros Hl Hv; revert i; induction Hl as [|x l Hx Hl IH]; intros [|i];
    simpl; auto.
Qed.

Lemma Forall_nth_default (P : A -> Prop) l i d : Forall P l -> P d -> P (nth i l d).
Proof.
  intros Hl Hd; revert i; induction Hl; intros [|i]; simpl; auto.
Qed.

End ListFacts.

Section IndexedMaps.
Context {A B : Type}.

Lemma length_mapi_from (f : A -> nat -> B) i l : length (mapi_from f i l) = length l.
Proof.
  revert i; induction l as [|x l IH]; intros i; simpl; auto.
Qed.

Lemma nth_mapi_from (f : A -> nat -> B) i l k da db :
  (k < length l)%nat ->
  nth k (mapi_from f i l) db = f (nth k l da) (i + k)%nat.
Proof.
  revert i k; induction l as [|x l IH]; intros i [|k] H; simpl in *; try lia.
  - now rewrite Nat.add_0_r.
  - rewrite (IH (S i) k) by lia. f_equal; lia.
Qed.

Lemma mapi_from_ext (f g : A -> nat -> B) i l :
  (forall x k, (i <= k)%nat -> f x k = g x k) -> mapi_from f i l = mapi_from g i l.
Proof.
  revert i; induction l as [|x l IH]; intros i H; simpl; auto.
  rewrite H by lia. f_equal. apply IH. intros; apply H; lia.
Qed.

End IndexedMaps.

Lemma length_mapi {A B} (f : A -> nat -> B) l : length (mapi f l) = length l.
Proof. apply length_mapi_from. Qed.

Lemma nth_mapi {A B} (f : A -> nat -> B) l k da db :
  (k < length l)%nat -> nth k (mapi f l) db = f (nth k l da) k.
Proof. intros H. unfold mapi. now rewrite (nth_mapi_from f 0 l k da db H). Qed.

(** A [forEach] whose body replaces row [i] of the state by a function of
    that row rewrites the rows of the index range and nothing else. *)
Lemma forEach_from_rows {A R : Type} (body : list R -> A -> nat -> list R)
    (F : A -> nat -> R -> R) (Inv : list R -> Prop) (d : R) :
  (forall s x j, Inv s -> (j < length s)%nat ->
     body s x j = replace_at j (F x j (nth j s d)) s) ->
  (forall s x j, Inv s -> (j < length s)%nat ->
     Inv (replace_at j (F x j (nth j s d)) s)) ->
  forall l i s, Inv s -> (i + length l <= length s)%nat ->
    forEach_from body i l s =
    firstn i s ++ mapi_from (fun x j => F x j (nth j s d)) i l
             ++ skipn (i + length l) s.
Proof.
  intros Hbody Hinv l; induction l as [|x l IH]; intros i s HI Hlen; simpl.
  - rewrite Nat.add_0_r. now rewrite firstn_skipn.
  - simpl in Hlen. rewrite Hbody by (auto; lia).
    rewrite IH; [| apply Hinv; auto; lia | rewrite length_replace_at; lia].
    assert (Hsplit : s = firstn i s ++ nth i s d :: skipn (S i) s).
    { rewrite <- (firstn_skipn i s) at 1. f_equal.
      clear - Hlen. revert s Hlen. induction i as [|i IHi]; intros [|y s] H;
        simpl in *; try lia; auto. apply IHi; lia. }
    assert (Hfl : length (firstn i s) = i) by (rewrite length_firstn; lia).
    set (v := F x i (nth i s d)).
    assert (Hrep : replace_at i v s = firstn i s ++ v :: skipn (S i) s).
    { rewrite Hsplit at 1. now apply replace_at_app. }
    assert (H1 : firstn (S i) (replace_at i v s) = firstn i s ++ [v]).
    { rewrite Hrep. replace (S i) with (length (firstn i s) + 1)%nat by lia.
      rewrite firstn_app_2. reflexivity. }
    assert (H2 : skipn (S i + length l) (replace_at i v s) = skipn (i + S (length l)) s).
    { rewrite Hrep. replace (S i + length l)%nat with (length (firstn i s) + S (length l))%nat by lia.
      rewrite skipn_app, skipn_all2 by lia.
      replace (length (firstn i s) + S (length l) - length (firstn i s))%nat
        with (S (length l)) by lia.
      cbn [skipn app]. change (skipn (length l) (skipn (S i) s) = skipn (i + S (length l)) s). rewrite skipn_skipn. f_equal. lia. }
    rewrite H1, H2, <- app_assoc. simpl. do 2 f_equal.
    f_equal. apply mapi_from_ext. intros y k Hk.
    rewrite nth_replace_at_neq by lia. reflexivity.
Qed.

(** ** Two-dimensional arrays *)

Lemma shape2_zeros2 rows cols : ndarray.shape2 (ndarray.zeros2 rows cols) rows cols.
Proof.
  unfold ndarray.shape2, ndarray.zeros2. split.
  - apply repeat_length.
  - apply Forall_forall. intros r Hr. apply repeat_spec in Hr. subst.
    apply repeat_length.
Qed.

Lemma shape2_row a rows cols i :
  ndarray.shape2 a rows cols -> (i < rows)%nat -> length (nth i a []) = cols.
Proof.
  intros [Hl Hf] Hi. rewrite Forall_forall in Hf. apply Hf, nth_In. lia.
Qed.

Lemma shape2_replace_row a rows cols i r :
  ndarray.shape2 a rows cols -> length r = cols ->
  ndarray.shape2 (replace_at i r a) rows cols.
Proof.
  intros [Hl Hf] Hr. split.
  - now rewrite length_replace_at.
  - now apply Forall_replace_at.
Qed.

Lemma shape2_set2 a rows cols i j v :
  ndarray.shape2 a rows cols -> ndarray.shape2 (ndarray.set2 a i j v) rows cols.
Proof.
  intros H. unfold ndarray.set2.
  destruct (Nat.lt_ge_cases i rows) as [Hi|Hi].
  - apply shape2_replace_row; auto. rewrite length_replace_at.
    eapply shape2_row; eauto.
  - rewrite replace_at_outside by (destruct H; lia). exact H.
Qed.

Lemma get2_set2_eq a i j v :
  (i < length a)%nat -> (j < length (nth i a []))%nat ->
  ndarray.get2 (ndarray.set2 a i j v) i j = v.
Proof.
  intros Hi Hj. unfold ndarray.get2, ndarray.set2.
  rewrite nth_replace_at_eq by auto. now apply nth_replace_at_eq.
Qed.

Lemma get2_set2_neq a i j i' j' v :
  (i, j) <> (i', j') ->
  ndarray.get2 (ndarray.set2 a i j v) i' j' = ndarray.get2 a i' j'.
Proof.
  intros Hne. unfold ndarray.get2, ndarray.set2.
  destruct (Nat.eq_dec i i') as [->|Hi].
  - destruct (Nat.lt_ge_cases i' (length a)) as [Hl|Hl].
    + rewrite nth_replace_at_eq by auto. apply nth_replace_at_neq. congruence.
    + rewrite replace_at_outside by auto. reflexivity.
  - now rewrite nth_replace_at_neq.
Qed.

Lemma row_set2_other a i j i' v :
  i <> i' -> nth i' (ndarray.set2 a i j v) [] = nth i' a [].
Proof. intros H. unfold ndarray.set2. now apply nth_replace_at_neq. Qed.

Lemma set2_row a i j v pre post old :
  (i < length a)%nat -> nth i a [] = pre ++ old :: post -> length pre = j ->
  ndarray.set2 a i j v = replace_at i (pre ++ v :: post) a.
Proof.
  intros Hi Hrow Hj. unfold ndarray.set2. rewrite Hrow.
  now rewrite (replace_at_app j v pre post old).
Qed.

(** Writing a whole row of the right length replaces the row. *)
Lemma setRowValues_replace a row values :
  (row < length a)%nat -> length (nth row a []) = length values ->
  setRowValues a row values = replace_at row values a.
Proof.
  intros Hrow Hlen. unfold setRowValues, forEach.
  assert (G : forall vs pre old a0,
             (row < length a0)%nat ->
             nth row a0 [] = pre ++ old -> length old = length vs ->
             forEach_from (fun a v col => ndarray.set2 a row col v)
               (length pre) vs a0 = replace_at row (pre ++ vs) a0).
  { induction vs as [|v vs IH]; intros pre old a0 Ha Hr Hl; simpl.
    - destruct old; simpl in Hl; try lia. rewrite <- Hr. symmetry.
      apply replace_at_nth.
    - destruct old as [|o old]; simpl in Hl; try lia.
      rewrite (set2_row a0 row (length pre) v pre old o) by auto.
      replace (S (length pre)) with (length (pre ++ [v])) by (rewrite length_app; simpl; lia).
      rewrite (IH (pre ++ [v]) old).
      + rewrite replace_at_twice. now rewrite <- app_assoc.
      + now rewrite length_replace_at.
      + rewrite nth_replace_at_eq by auto. now rewrite <- app_assoc.
      + lia. }
  apply (G values [] (nth row a []) a); auto.
Qed.

(** ** Three-dimensional arrays *)

Lemma shape3_zeros3 d1 d2 d3 : ndarray.shape3 (ndarray.zeros3 d1 d2 d3) d1 d2 d3.
Proof.
  unfold ndarray.shape3, ndarray.zeros3. split.
  - apply repeat_length.
  - apply Forall_forall. intros m Hm. apply repeat_spec in Hm. subst.
    apply shape2_zeros2.
Qed.

Lemma shape3_slice a d1 d2 d3 i :
  ndarray.shape3 a d1 d2 d3 -> (i < d1)%nat -> ndarray.shape2 (nth i a []) d2 d3.
Proof.
  intros [Hl Hf] Hi. rewrite Forall_forall in Hf. apply Hf, nth_In. lia.
Qed.

Lemma shape3_set3 a d1 d2 d3 i j k v :
  ndarray.shape3 a d1 d2 d3 -> ndarray.shape3 (ndarray.set3 a i j k v) d1 d2 d3.
Proof.
  intros H. unfold ndarray.set3.
  destruct (Nat.lt_ge_cases i d1) as [Hi|Hi].
  - destruct H as [Hl Hf]. split.
    + now rewrite length_replace_at.
    + apply Forall_replace_at; auto. apply shape2_set2.
      apply (shape3_slice a d1 d2 d3 i); auto. now split.
  - rewrite replace_at_outside by (destruct H; lia). exact H.
Qed.

Lemma get3_set3_eq a d1 d2 d3 i j k v :
  ndarray.shape3 a d1 d2 d3 -> (i < d1)%nat -> (j < d2)%nat -> (k < d3)%nat ->
  ndarray.get3 (ndarray.set3 a i j k v) i j k = v.
Proof.
  intros H Hi Hj Hk. unfold ndarray.get3, ndarray.set3.
  pose proof (shape3_slice a d1 d2 d3 i H Hi) as Hs.
  rewrite nth_replace_at_eq by (destruct H; lia).
  apply get2_set2_eq.
  - destruct Hs; lia.
  - rewrite (shape2_row _ d2 d3 j Hs Hj). exact Hk.
Qed.

Lemma get3_set3_neq a i j k i' j' k' v :
  (i, j, k) <> (i', j', k') ->
  ndarray.get3 (ndarray.set3 a i j k v) i' j' k' = ndarray.get3 a i' j' k'.
Proof.
  intros Hne. unfold ndarray.get3, ndarray.set3.
  destruct (Nat.eq_dec i i') as [->|Hi].
  - destruct (Nat.lt_ge_cases i' (length a)) as [Hl|Hl].
    + rewrite nth_replace_at_eq by auto. apply get2_set2_neq. congruence.
    + rewrite replace_at_outside by auto. reflexivity.
  - now rewrite nth_replace_at_neq.
Qed.

(** ** [updateProjectionDay] copies the daily state into one day of the grid *)

Section UpdateProjectionDay.
Variables (numDays day : nat) (data : ndarray.array2).
Hypothesis day_in_range : (day < numDays)%nat.

Let shape grid :=
  ndarray.shape3 grid seirIndex.__length numDays ageGroupIndex.__length.

Let copyCell bracket (grid : ndarray.array3) compartment :=
  ndarray.set3 grid compartment day bracket (ndarray.get2 data bracket compartment).

Lemma copy_bracket_shape bracket compartments grid :
  shape grid -> shape (fold_left (copyCell bracket) compartments grid).
Proof.
  revert grid; induction compartments as [|c cs IH]; intros grid H; simpl; auto.
  apply IH. apply shape3_set3, H.
Qed.

Lemma copy_bracket_get bracket compartments grid c d g :
  shape grid -> (bracket < ageGroupIndex.__length)%nat ->
  Forall (fun x => (x < seirIndex.__length)%nat) compartments ->
  ndarray.get3 (fold_left (copyCell bracket) compartments grid) c d g =
  if (existsb (Nat.eqb c) compartments && (d =? day) && (g =? bracket))%nat
  then ndarray.get2 data g c else ndarray.get3 grid c d g.
Proof.
  intros Hs Hb Hc. revert grid Hs.
  induction Hc as [|x cs Hx Hcs IH]; intros grid Hs; simpl.
  - reflexivity.
  - rewrite IH by (apply shape3_set3, Hs).
    destruct (existsb (Nat.eqb c) cs && (d =? day) && (g =? bracket))%nat eqn:E.
    + rewrite !andb_true_iff in E. destruct E as [[E1 E2] E3].
      rewrite E1, E2, E3, orb_true_r. reflexivity.
    + destruct ((c =? x) && (d =? day) && (g =? bracket))%nat eqn:E'.
      * rewrite !andb_true_iff, !Nat.eqb_eq in E'. destruct E' as [[-> ->] ->].
        rewrite !Nat.eqb_refl. simpl. unfold copyCell.
        eapply get3_set3_eq; eauto.
      * assert (Hn : (x, day, bracket) <> (c, d, g)).
        { intros Heq; inversion Heq; subst.
          rewrite !Nat.eqb_refl in E'. discriminate. }
        unfold copyCell at 1. rewrite get3_set3_neq by exact Hn.
        destruct (c =? x)%nat eqn:Ec; simpl in *.
        -- rewrite E'. reflexivity.
        -- rewrite E. reflexivity.
Qed.

Lemma updateProjectionDay_shape grid :
  shape grid -> shape (updateProjectionDay grid day data).
Proof.
  unfold updateProjectionDay. generalize (range ageGroupIndex.__length).
  intros brackets; revert grid; induction brackets as [|b bs IH];
    intros grid H; cbn [fold_left]; auto.
  apply IH. apply (copy_bracket_shape b), H.
Qed.

Lemma updateProjectionDay_get grid c d g :
  shape grid -> (c < seirIndex.__length)%nat -> (g < ageGroupIndex.__length)%nat ->
  ndarray.get3 (updateProjectionDay grid day data) c d g =
  if (d =? day)%nat then ndarray.get2 data g c else ndarray.get3 grid c d g.
Proof.
  intros Hs Hc Hg. unfold updateProjectionDay.
  assert (G : forall brackets grid0, shape grid0 ->
            Forall (fun b => (b < ageGroupIndex.__length)%nat) brackets ->
            ndarray.get3
              (fold_left (fun grid bracket =>
                            fold_left (copyCell bracket) (range seirIndex.__length) grid)
                 brackets grid0) c d g =
            if (existsb (Nat.eqb g) brackets && (d =? day))%nat
            then ndarray.get2 data g c else ndarray.get3 grid0 c d g).
  { intros brackets grid0 H0 Hb; revert grid0 H0.
    induction Hb as [|b bs Hb Hbs IH]; intros grid0 H0; cbn [fold_left existsb].
    - reflexivity.
    - rewrite IH by (apply copy_bracket_shape, H0).
      rewrite copy_bracket_get; auto.
      2:{ apply Forall_forall. intros x Hx. apply in_seq in Hx.
          unfold seirIndex.__length in *. lia. }
      assert (Hin : existsb (Nat.eqb c) (range seirIndex.__length) = true).
      { apply existsb_exists. exists c. split; [|apply Nat.eqb_refl].
        apply in_seq. lia. }
      rewrite Hin. clear IH Hin.
      destruct (existsb (Nat.eqb g) bs), (d =? day)%nat, (g =? b)%nat; reflexivity. }
  rewrite G; auto.
  - assert (Hin : existsb (Nat.eqb g) (range ageGroupIndex.__length) = true).
    { apply existsb_exists. exists g. split; [|apply Nat.eqb_refl].
      apply in_seq. lia. }
    rewrite Hin. reflexivity.
  - apply Forall_forall. intros x Hx. apply in_seq in Hx. lia.
Qed.

End UpdateProjectionDay.

(** ** The day loop computes the trajectory *)

Lemma length_simulateOneDay inputs : length (simulateOneDay inputs) = seirIndex.__length.
Proof. reflexivity. Qed.

Lemma Forall_mapi_from {A B} (P : B -> Prop) (f : A -> nat -> B) i l :
  (forall x k, P (f x k)) -> Forall P (mapi_from f i l).
Proof.
  intros H; revert i; induction l as [|x l IH]; intros i; simpl; auto.
Qed.

Lemma nextState_shape dorm rc rd adj total st :
  stateShape (nextState dorm rc rd adj total st).
Proof.
  unfold nextState, mapi. split.
  - now rewrite length_mapi_from.
  - apply Forall_mapi_from. intros; apply length_simulateOneDay.
Qed.

Lemma initialState_shape populations cases : stateShape (initialState populations cases).
Proof.
  unfold initialState, forEach.
  generalize (zip populations cases) 0%nat
             (shape2_zeros2 ageGroupIndex.__length seirIndex.__length).
  generalize (ndarray.zeros2 ageGroupIndex.__length seirIndex.__length).
  intros s l; revert s; induction l as [|[pop cs] l IH]; intros s i H; simpl; auto.
  apply IH. unfold assignInitialState. repeat apply shape2_set2. exact H.
Qed.

Section DayLoop.
Variables (dorm rc rd : Q) (changes : list Q).

Lemma simulateDay_state st day :
  stateShape (Loop.singleDayState st) ->
  Loop.singleDayState (simulateDay dorm rc rd changes st day) =
  nextState dorm rc rd (nth day changes 0)
    (nth (day - 1) (Loop.totalPopulationByDay st) 0) (Loop.singleDayState st).
Proof.
  intros Hs. unfold simulateDay. cbn [Loop.singleDayState]. unfold forEach.
  set (s0 := Loop.singleDayState st) in *.
  set (F := fun (rate : Q) (ageGroup : nat) (row : list Q) =>
              simulateOneDay
                {| SingleDay.facilityDormitoryPct := dorm;
                   SingleDay.pFatalityRate := rate;
                   SingleDay.populationAdjustment := nth day changes 0;
                   SingleDay.priorSimulation := row;
                   SingleDay.rateOfSpreadCells := rc;
                   SingleDay.rateOfSpreadDorms := rd;
                   SingleDay.simulateStaff :=
                     (ageGroup =? ageGroupIndex.index ageGroupIndex.staff)%nat;
                   SingleDay.totalInfectious := totalInfectiousOf s0;
                   SingleDay.totalPopulation :=
                     nth (day - 1) (Loop.totalPopulationByDay st) 0;
                   SingleDay.totalSusceptibleIncarcerated :=
                     totalSusceptibleIncarceratedOf s0 |}).
  rewrite (forEach_from_rows _ F (fun s => stateShape s) []).
  - destruct Hs as [Hl Hf]. cbn [firstn app].
    rewrite skipn_all2 by (rewrite Hl; reflexivity).
    rewrite app_nil_r. reflexivity.
  - intros s x j HI Hj. unfold F, getAllValues, getRowView.
    apply setRowValues_replace; auto.
    rewrite length_simulateOneDay. apply (shape2_row _ _ _ _ HI).
    destruct HI; lia.
  - intros s x j HI Hj. apply shape2_replace_row; auto.
  - exact Hs.
  - destruct Hs as [Hl _]. rewrite Hl. reflexivity.
Qed.

Variables (state0 : ndarray.array2) (total0 : Q) (numDays : nat)
          (grid0 : ndarray.array3).
Hypothesis state0_shape : stateShape state0.
Hypothesis grid0_shape :
  ndarray.shape3 grid0 seirIndex.__length numDays ageGroupIndex.__length.
Hypothesis numDays_positive : (0 < numDays)%nat.

#[local] Abbreviation traj := (trajectory dorm rc rd changes state0 total0).
#[local] Abbreviation loopInvariant :=
  (loopInvariantOf dorm rc rd changes state0 total0 numDays).

Let start : Loop.State :=
  {| Loop.singleDayState := state0;
     Loop.totalPopulationByDay := array_set (repeat 0 numDays) 0 total0;
     Loop.projectionGrid := updateProjectionDay grid0 0 state0 |}.

Lemma loopInvariant_start : loopInvariant 0 start.
Proof.
  unfold loopInvariantOf, start; cbn [Loop.singleDayState Loop.totalPopulationByDay
    Loop.projectionGrid]. unfold array_set.
  rewrite repeat_length.
  destruct (Nat.ltb_spec 0 numDays) as [_|]; [|lia].
  repeat split.
  - exact (proj1 state0_shape).
  - exact (proj2 state0_shape).
  - now rewrite length_replace_at, repeat_length.
  - intros d Hd. assert (d = 0)%nat by lia. subst d.
    apply nth_replace_at_eq. now rewrite repeat_length.
  - apply (updateProjectionDay_shape numDays 0 state0 grid0 grid0_shape).
  - apply (updateProjectionDay_shape numDays 0 state0 grid0 grid0_shape).
  - intros d c g Hd Hc Hg. assert (d = 0)%nat by lia. subst d.
    rewrite (updateProjectionDay_get numDays 0 state0 numDays_positive grid0); auto.
Qed.

Lemma trajectory_step k :
  traj (S k) =
  (nextState dorm rc rd (nth (S k) changes 0) (snd (traj k)) (fst (traj k)),
   snd (traj k) + nth (S k) changes 0).
Proof.
  cbn [trajectory].
  destruct (trajectory dorm rc rd changes state0 total0 k). reflexivity.
Qed.

Lemma loopInvariant_step k st :
  (S k < numDays)%nat -> loopInvariant k st ->
  loopInvariant (S k) (simulateDay dorm rc rd changes st (S k)).
Proof.
  intros Hk (Hst & Hsh & Hlen & Htot & Hgs & Hg).
  assert (Hprev : nth (S k - 1) (Loop.totalPopulationByDay st) 0 = snd (traj k)).
  { replace (S k - 1)%nat with k by lia. apply Htot. lia. }
  assert (Hnew : Loop.singleDayState (simulateDay dorm rc rd changes st (S k)) =
                 fst (traj (S k))).
  { rewrite simulateDay_state by exact Hsh.
    rewrite trajectory_step, Hprev, Hst. reflexivity. }
  unfold loopInvariantOf. split; [exact Hnew|]. split.
  { rewrite Hnew, trajectory_step. apply nextState_shape. }
  assert (Hset : Loop.totalPopulationByDay (simulateDay dorm rc rd changes st (S k)) =
                 replace_at (S k) (snd (traj (S k))) (Loop.totalPopulationByDay st)).
  { unfold simulateDay. cbn [Loop.totalPopulationByDay]. unfold array_set.
    rewrite Hlen. destruct (Nat.ltb_spec (S k) numDays) as [_|]; [|lia].
    rewrite Hprev, trajectory_step. reflexivity. }
  split; [rewrite Hset; now rewrite length_replace_at|]. split.
  { intros d Hd. rewrite Hset.
    destruct (Nat.eq_dec d (S k)) as [->|Hne].
    - apply nth_replace_at_eq. lia.
    - rewrite nth_replace_at_neq by lia. apply Htot. lia. }
  assert (Hgrid : Loop.projectionGrid (simulateDay dorm rc rd changes st (S k)) =
                  updateProjectionDay (Loop.projectionGrid st) (S k)
                    (Loop.singleDayState (simulateDay dorm rc rd changes st (S k)))).
  { unfold simulateDay. cbn [Loop.projectionGrid Loop.singleDayState]. reflexivity. }
  rewrite Hgrid. split.
  { apply (updateProjectionDay_shape numDays); exact Hgs. }
  intros d c g Hd Hc Hgr.
  rewrite (updateProjectionDay_get numDays (S k) _ Hk); auto.
  destruct (Nat.eqb_spec d (S k)) as [->|Hne].
  - rewrite Hnew. reflexivity.
  - apply Hg; auto. lia.
Qed.

Lemma loopInvariant_turns k :
  (k < numDays)%nat ->
  loopInvariant k (fold_left (simulateDay dorm rc rd changes) (seq 1 k) start).
Proof.
  induction k as [|k IH]; intros Hk.
  - exact loopInvariant_start.
  - rewrite seq_S, fold_left_app. cbn [fold_left]. replace (1 + k)%nat with (S k) by lia.
    apply loopInvariant_step; auto. apply IH. lia.
Qed.

Lemma loopInvariant_end :
  loopInvariant (numDays - 1)
    (fold_left (simulateDay dorm rc rd changes) (seq 1 (numDays - 1)) start).
Proof. apply loopInvariant_turns. lia. Qed.

End DayLoop.

(** The grid and the total-population sequence returned by
    [getAllBracketCurves] hold the trajectory, day by day. *)
Lemma grid_is_trajectory today inputs d c g :
  (d < CurveProjection.numDays inputs)%nat ->
  (c < seirIndex.__length)%nat -> (g < ageGroupIndex.__length)%nat ->
  ndarray.get3 (Curves.projectionGrid (getAllBracketCurves today inputs)) c d g =
  ndarray.get2 (fst (trajectoryOf today inputs d)) g c.
Proof.
  intros Hd Hc Hg. unfold getAllBracketCurves. cbn [Curves.projectionGrid].
  match goal with
  | |- context [fold_left (simulateDay ?dorm ?rc ?rd ?ch) _
                  {| Loop.singleDayState := ?s0;
                     Loop.totalPopulationByDay := array_set _ 0 ?t0;
                     Loop.projectionGrid := updateProjectionDay ?g0 0 _ |}] =>
      pose proof (loopInvariant_end dorm rc rd ch s0 t0
                    (CurveProjection.numDays inputs) g0) as H
  end.
  destruct H as (_ & _ & _ & _ & _ & H).
  - apply initialState_shape.
  - apply shape3_zeros3.
  - lia.
  - apply H; auto. lia.
Qed.

Lemma totalPopulationByDay_is_trajectory today inputs d :
  (d < CurveProjection.numDays inputs)%nat ->
  nth d (Curves.totalPopulationByDay (getAllBracketCurves today inputs)) 0 =
  snd (trajectoryOf today inputs d).
Proof.
  intros Hd. unfold getAllBracketCurves. cbn [Curves.totalPopulationByDay].
  match goal with
  | |- context [fold_left (simulateDay ?dorm ?rc ?rd ?ch) _
                  {| Loop.singleDayState := ?s0;
                     Loop.totalPopulationByDay := array_set _ 0 ?t0;
                     Loop.projectionGrid := updateProjectionDay ?g0 0 _ |}] =>
      pose proof (loopInvariant_end dorm rc rd ch s0 t0
                    (CurveProjection.numDays inputs) g0) as H
  end.
  destruct H as (_ & _ & _ & H & _).
  - apply initialState_shape.
  - apply shape3_zeros3.
  - lia.
  - apply H; auto. lia.
Qed.

(** ** Sums *)

Lemma fold_left_Qplus_acc l a : fold_left Qplus l a == a + fold_left Qplus l 0.
Proof.
  revert a; induction l as [|x l IH]; intros a; simpl.
  - ring.
  - rewrite (IH (a + x)), (IH (0 + x)). ring.
Qed.

Lemma sum_nil : sum [] = 0.
Proof. reflexivity. Qed.

Lemma sum_cons x l : sum (x :: l) == x + sum l.
Proof. unfold sum; simpl. rewrite fold_left_Qplus_acc. ring. Qed.

Lemma sum_app l l' : sum (l ++ l') == sum l + sum l'.
Proof.
  induction l as [|x l IH]; simpl.
  - rewrite sum_nil. ring.
  - rewrite !sum_cons, IH. ring.
Qed.

#[export] Instance sum_Proper : Proper (Forall2 Qeq ==> Qeq) sum.
Proof.
  intros l l' H. induction H as [|x y l l' Hxy Hl IH].
  - reflexivity.
  - rewrite !sum_cons, Hxy, IH. reflexivity.
Qed.

Lemma sum_nonneg l : Forall (fun x => 0 <= x) l -> 0 <= sum l.
Proof.
  induction 1 as [|x l Hx Hl IH].
  - rewrite sum_nil. lra.
  - rewrite sum_cons. lra.
Qed.

(** ** Planned releases *)

Lemma length_applyPlannedRelease today changes r :
  length (applyPlannedRelease today changes r) = length changes.
Proof.
  unfold applyPlannedRelease.
  destruct (count r) as [c|], (date r) as [dt|]; auto.
  destruct (Qeq_bool c 0); auto.
  destruct (_ <? _)%Z; auto. destruct (_ <=? _)%Z; auto.
  apply length_replace_at.
Qed.

Lemma length_fold_applyPlannedRelease today l changes :
  length (fold_left (applyPlannedRelease today) l changes) = length changes.
Proof.
  revert changes; induction l as [|r l IH]; intros changes; simpl; auto.
  now rewrite IH, length_applyPlannedRelease.
Qed.

Lemma length_resolvePlannedReleases today numDays releases :
  length (resolvePlannedReleases today numDays releases) = numDays.
Proof.
  unfold resolvePlannedReleases. destruct releases as [l|].
  - now rewrite length_fold_applyPlannedRelease, repeat_length.
  - apply repeat_length.
Qed.

Lemma applyPlannedRelease_incomplete today changes r :
  incompleteRelease r = true -> applyPlannedRelease today changes r = changes.
Proof.
  unfold incompleteRelease, applyPlannedRelease.
  destruct (count r) as [c|], (date r) as [dt|]; auto.
  intros ->. reflexivity.
Qed.

Lemma applyPlannedRelease_beyond today changes r offset :
  releaseOffset today r = Some offset -> (Z.of_nat (length changes) <= offset)%Z ->
  applyPlannedRelease today changes r = changes.
Proof.
  unfold releaseOffset, applyPlannedRelease.
  destruct (count r) as [c|], (date r) as [dt|]; auto; try discriminate.
  intros [= <-] H. destruct (Qeq_bool c 0); auto.
  destruct (Z.ltb_spec (differenceInCalendarDays dt today)
              (Z.of_nat (length changes))); auto. lia.
Qed.

Lemma nth_applyPlannedRelease today changes r d :
  (d < length changes)%nat ->
  nth d (applyPlannedRelease today changes r) 0 ==
  nth d changes 0 - releasedOn today d r.
Proof.
  intros Hd. unfold applyPlannedRelease, releasedOn.
  destruct (count r) as [c|], (date r) as [dt|]; try ring.
  destruct (Qeq_bool c 0); try ring.
  set (k := differenceInCalendarDays dt today).
  destruct (Z.eqb_spec k (Z.of_nat d)) as [E|E].
  - destruct (Z.ltb_spec k (Z.of_nat (length changes))); [|lia].
    destruct (Z.leb_spec 0 k); [|lia].
    rewrite E, Nat2Z.id. rewrite nth_replace_at_eq by auto. reflexivity.
  - destruct (Z.ltb_spec k (Z.of_nat (length changes))); [|ring].
    destruct (Z.leb_spec 0 k); [|ring].
    rewrite nth_replace_at_neq by lia. ring.
Qed.

Lemma nth_fold_applyPlannedRelease today l changes d :
  (d < length changes)%nat ->
  nth d (fold_left (applyPlannedRelease today) l changes) 0 ==
  nth d changes 0 - sum (map (releasedOn today d) l).
Proof.
  revert changes; induction l as [|r l IH]; intros changes Hd; simpl.
  - rewrite sum_nil. ring.
  - rewrite IH by now rewrite length_applyPlannedRelease.
    rewrite nth_applyPlannedRelease by auto. rewrite sum_cons. ring.
Qed.

Lemma nth_repeat_zero n d : nth d (repeat 0 n) 0 = 0.
Proof.
  revert d; induction n as [|n IH]; intros [|d]; simpl; auto.
Qed.

Lemma nth_resolvePlannedReleases today numDays l d :
  (d < numDays)%nat ->
  nth d (resolvePlannedReleases today numDays (Some l)) 0 ==
  - sum (map (releasedOn today d) l).
Proof.
  intros Hd. unfold resolvePlannedReleases.
  rewrite nth_fold_applyPlannedRelease by now rewrite repeat_length.
  rewrite nth_repeat_zero. ring.
Qed.

Lemma resolve_skip today numDays before r after :
  (forall changes, length changes = numDays ->
     applyPlannedRelease today changes r = changes) ->
  resolvePlannedReleases today numDays (Some (before ++ r :: after)) =
  resolvePlannedReleases today numDays (Some (before ++ after)).
Proof.
  intros H. unfold resolvePlannedReleases.
  rewrite !fold_left_app. cbn [fold_left]. rewrite H; auto.
  now rewrite length_fold_applyPlannedRelease, repeat_length.
Qed.

(** C6.  Resolving the planned releases into the per-day adjustments:
    an entry with a missing date or a zero or undefined count is ignored, an
    event whose day offset lies at or beyond the horizon is dropped, and the
    entry of a day is minus the sum of the counts of all the complete
    events that resolve to that day. *)
Theorem C6_planned_release_resolution (today : Z) (numDays : nat) :
  (forall before r after,
     date r = None \/ count r = None \/ (exists c, count r = Some c /\ c == 0) ->
     resolvePlannedReleases today numDays (Some (before ++ r :: after)) =
     resolvePlannedReleases today numDays (Some (before ++ after))) /\
  (forall before r after offset,
     releaseOffset today r = Some offset -> (Z.of_nat numDays <= offset)%Z ->
     resolvePlannedReleases today numDays (Some (before ++ r :: after)) =
     resolvePlannedReleases today numDays (Some (before ++ after))) /\
  (forall releases d, (d < numDays)%nat ->
     nth d (resolvePlannedReleases today numDays (Some releases)) 0 ==
     - sum (map (releasedOn today d) releases)) /\
  (forall releases,
     length (resolvePlannedReleases today numDays releases) = numDays).
Proof.
  repeat split.
  - intros before r after H. apply resolve_skip. intros changes _.
    apply applyPlannedRelease_incomplete. unfold incompleteRelease.
    destruct H as [H|[H|(c & H & Hc)]].
    + rewrite H. now destruct (count r).
    + now rewrite H.
    + rewrite H. destruct (date r); auto. now apply Qeq_bool_iff.
  - intros before r after offset Ho Hb. apply resolve_skip. intros changes Hl.
    apply (applyPlannedRelease_beyond today changes r offset Ho). lia.
  - intros. now apply nth_resolvePlannedReleases.
  - intros. apply length_resolvePlannedReleases.
Qed.

Lemma C6_planned_release_resolution_witness :
  resolvePlannedReleases 17 5
    (Some ([ {| date := Some 18%Z; count := Some 10 |} ]
           ++ {| date := None; count := Some 7 |}
           :: [ {| date := Some 18%Z; count := Some 5 |} ])) =
  resolvePlannedReleases 17 5
    (Some ([ {| date := Some 18%Z; count := Some 10 |} ]
           ++ [ {| date := Some 18%Z; count := Some 5 |} ])) /\
  resolvePlannedReleases 17 5
    (Some ([] ++ {| date := Some 22%Z; count := Some 7 |} :: [])) =
  resolvePlannedReleases 17 5 (Some ([] ++ [])) /\
  nth 1 (resolvePlannedReleases 17 5
           (Some [ {| date := Some 18%Z; count := Some 10 |};
                   {| date := Some 18%Z; count := Some 5 |} ])) 0 ==
  - sum (map (releasedOn 17 1)
           [ {| date := Some 18%Z; count := Some 10 |};
             {| date := Some 18%Z; count := Some 5 |} ]).
Proof.
  destruct (C6_planned_release_resolution 17 5) as (Hskip & Hdrop & Hsum & _).
  split; [|split].
  - apply Hskip. left. reflexivity.
  - apply (Hdrop [] _ [] 5%Z); [reflexivity | simpl; lia].
  - apply Hsum. lia.
Defined.

(** ** Transmission intensities *)


(** ** The guard on the exposure term *)

Lemma div_by_zero_not_finite a b :
  b == 0 -> JSNumber.isFinite (JSNumber.div a b) = false.
Proof.
  intros H. unfold JSNumber.div. apply Qeq_bool_iff in H. rewrite H.
  now destruct (Qeq_bool a 0).
Qed.

Lemma add_not_finite x y :
  JSNumber.isFinite x = false -> JSNumber.isFinite (JSNumber.add x y) = false.
Proof.
  destruct x as [a|s|], y as [b|t|]; simpl; try discriminate; auto.
  now destruct (Bool.eqb s t).
Qed.

Lemma newExposures_zero_population inputs :
  SingleDay.totalPopulation inputs == 0 ->
  JSNumber.isFinite (newExposures inputs) = false.
Proof.
  intros H. unfold newExposures. destruct (SingleDay.simulateStaff inputs).
  - now apply div_by_zero_not_finite.
  - apply add_not_finite. now apply div_by_zero_not_finite.
Qed.

(** C4.  When the computed new-exposures value is not finite, as with a
    total population of zero, [simulateOneDay] uses zero in its place and
    still returns a row of ten values. *)
Theorem C4_non_finite_exposures_count_as_zero (inputs : SingleDay.Inputs) :
  JSNumber.isFinite (newExposures inputs) = false \/
    SingleDay.totalPopulation inputs == 0 ->
  simulateOneDay inputs = simulateOneDayWith inputs 0 /\
  length (simulateOneDay inputs) = 10%nat.
Proof.
  intros H.
  assert (Hnf : JSNumber.isFinite (newExposures inputs) = false).
  { destruct H as [H|H]; auto using newExposures_zero_population. }
  split; [|reflexivity].
  unfold simulateOneDay. now rewrite Hnf.
Qed.

Lemma C4_non_finite_exposures_count_as_zero_witness :
  simulateOneDay emptyFacility = simulateOneDayWith emptyFacility 0 /\
  length (simulateOneDay emptyFacility) = 10%nat.
Proof.
  apply (C4_non_finite_exposures_count_as_zero emptyFacility).
  right. reflexivity.
Defined.

(** ** The initial state *)

Ltac list_of_length l H :=
  repeat (destruct l as [|? l]; cbn [length] in H; try discriminate H);
  clear H.

Lemma set2_after_replace a i j v r :
  (i < length a)%nat ->
  ndarray.set2 (replace_at i r a) i j v = replace_at i (replace_at j v r) a.
Proof.
  intros Hi. unfold ndarray.set2.
  rewrite nth_replace_at_eq by auto. apply replace_at_twice.
Qed.

Lemma assignInitialState_row s pop cases index :
  stateShape s -> (index < ageGroupIndex.__length)%nat ->
  assignInitialState s (pop, cases) index = replace_at index (initialRow pop cases) s.
Proof.
  intros Hs Hi. pose proof (shape2_row _ _ _ index Hs Hi) as Hrow.
  assert (Hlen : (index < length s)%nat) by (destruct Hs; lia).
  unfold assignInitialState.
  unfold ndarray.set2 at 10.
  rewrite !set2_after_replace by exact Hlen.
  unfold seirIndex.__length in Hrow.
  destruct (nth index s []) as [|x0 r]; [discriminate|].
  list_of_length r Hrow.
  reflexivity.
Qed.

Lemma assignInitialState_other s entry index g :
  index <> g -> nth g (assignInitialState s entry index) [] = nth g s [].
Proof.
  intros H. destruct entry as [pop cases]. unfold assignInitialState.
  now rewrite !row_set2_other.
Qed.

Lemma assignInitialState_shape s entry index :
  stateShape s -> stateShape (assignInitialState s entry index).
Proof.
  intros H. destruct entry as [pop cases]. unfold assignInitialState.
  repeat apply shape2_set2. exact H.
Qed.

Lemma forEach_assignInitialState_row l : forall i s g,
  stateShape s -> (g < ageGroupIndex.__length)%nat ->
  nth g (forEach_from assignInitialState i l s) [] =
  if ((i <=? g) && (g <? i + length l))%nat
  then initialRow (fst (nth (g - i) l (0, 0))) (snd (nth (g - i) l (0, 0)))
  else nth g s [].
Proof.
  induction l as [|[pop cases] l IH]; intros i s g Hs Hg; cbn [forEach_from length].
  - replace ((i <=? g) && (g <? i + 0))%nat with false; auto.
    symmetry. apply andb_false_iff.
    destruct (Nat.leb_spec i g); auto. right. apply Nat.ltb_ge. lia.
  - rewrite IH by auto using assignInitialState_shape.
    destruct (Nat.leb_spec (S i) g) as [H1|H1];
      destruct (Nat.ltb_spec g (S i + length l)) as [H2|H2]; cbn [andb].
    + replace ((i <=? g) && (g <? i + S (length l)))%nat with true.
      2:{ symmetry. apply andb_true_iff. split;
            [apply Nat.leb_le|apply Nat.ltb_lt]; lia. }
      replace (g - i)%nat with (S (g - S i)) by lia. reflexivity.
    + replace ((i <=? g) && (g <? i + S (length l)))%nat with false.
      2:{ symmetry. apply andb_false_iff. right. apply Nat.ltb_ge. lia. }
      apply assignInitialState_other. lia.
    + destruct (Nat.eq_dec i g) as [->|Hne].
      * replace ((g <=? g) && (g <? g + S (length l)))%nat with true.
        2:{ symmetry. apply andb_true_iff. split;
              [apply Nat.leb_le|apply Nat.ltb_lt]; lia. }
        rewrite assignInitialState_row by auto.
        rewrite nth_replace_at_eq by (destruct Hs; lia).
        now rewrite Nat.sub_diag.
      * replace ((i <=? g) && (g <? i + S (length l)))%nat with false.
        2:{ symmetry. apply andb_false_iff. left. apply Nat.leb_gt. lia. }
        apply assignInitialState_other. lia.
    + lia.
Qed.

Lemma nth_combine {A B} (l : list A) (l' : list B) k da db :
  (k < length l)%nat -> (k < length l')%nat ->
  nth k (combine l l') (da, db) = (nth k l da, nth k l' db).
Proof.
  revert l' k; induction l as [|x l IH]; intros [|y l'] [|k]; simpl; intros;
    try lia; auto. apply IH; lia.
Qed.

Lemma initialState_row populations cases g :
  (g < ageGroupIndex.__length)%nat ->
  (g < length populations)%nat -> (g < length cases)%nat ->
  nth g (initialState populations cases) [] =
  initialRow (nth g populations 0) (nth g cases 0).
Proof.
  intros Hg Hp Hc. unfold initialState, forEach.
  rewrite forEach_assignInitialState_row by (auto; apply shape2_zeros2).
  unfold zip. rewrite length_combine.
  replace ((0 <=? g) && (g <? 0 + Nat.min (length populations) (length cases)))%nat
    with true.
  2:{ symmetry. apply andb_true_iff. split;
        [apply Nat.leb_le|apply Nat.ltb_lt]; lia. }
  rewrite Nat.sub_0_r, nth_combine by auto. reflexivity.
Qed.

(** ** Total population by day *)

Lemma expectedPopulationChanges_resolved today inputs :
  Curves.expectedPopulationChanges (getAllBracketCurves today inputs) =
  resolvePlannedReleases today (CurveProjection.numDays inputs)
    (CurveProjection.plannedReleases inputs).
Proof. reflexivity. Qed.

Lemma trajectoryOf_total_step today inputs k :
  snd (trajectoryOf today inputs (S k)) =
  snd (trajectoryOf today inputs k) +
  nth (S k) (resolvePlannedReleases today (CurveProjection.numDays inputs)
               (CurveProjection.plannedReleases inputs)) 0.
Proof. unfold trajectoryOf. now rewrite trajectory_step. Qed.

Lemma totalPopulationByDay_step today inputs N :
  (1 <= N < CurveProjection.numDays inputs)%nat ->
  let out := getAllBracketCurves today inputs in
  nth N (Curves.totalPopulationByDay out) 0 =
  nth (N - 1) (Curves.totalPopulationByDay out) 0 +
  nth N (Curves.expectedPopulationChanges out) 0.
Proof.
  intros HN out. subst out.
  rewrite !totalPopulationByDay_is_trajectory by lia.
  rewrite expectedPopulationChanges_resolved.
  destruct N as [|k]; [lia|]. replace (S k - 1)%nat with k by lia.
  apply trajectoryOf_total_step.
Qed.

Lemma sum_all_zero l : Forall (fun x => x == 0) l -> sum l == 0.
Proof.
  induction 1 as [|x l Hx Hl IH].
  - reflexivity.
  - rewrite sum_cons, Hx, IH. ring.
Qed.

(** C5.  A planned release of 50 people whose date resolves to day
    offset 3, inside the horizon and with no other adjustment on that day,
    is the entry -50 at index 3 of the resolved adjustments; on every day
    N from 1 to numDays - 1 the total population is that of day N - 1 plus
    the adjustment of day N, so that the total of day 3 is the total of
    day 2 minus 50. *)
Theorem C5_planned_release_applied (today : Z) (inputs : CurveProjection.Inputs)
    (before after : list PlannedRelease) (release : PlannedRelease) (people : Q) :
  CurveProjection.plannedReleases inputs = Some (before ++ release :: after) ->
  releaseOffset today release = Some 3%Z ->
  count release = Some people -> people == 50 ->
  Forall (fun other => releasedOn today 3 other == 0) (before ++ after) ->
  (3 < CurveProjection.numDays inputs)%nat ->
  let out := getAllBracketCurves today inputs in
  nth 3 (Curves.expectedPopulationChanges out) 0 == - 50 /\
  (forall N, (1 <= N < CurveProjection.numDays inputs)%nat ->
     nth N (Curves.totalPopulationByDay out) 0 ==
     nth (N - 1) (Curves.totalPopulationByDay out) 0 +
     nth N (Curves.expectedPopulationChanges out) 0) /\
  nth 3 (Curves.totalPopulationByDay out) 0 ==
  nth 2 (Curves.totalPopulationByDay out) 0 - 50.
Proof.
  intros Hrel Hoff Hcount Hpeople Hothers Hdays out.
  assert (H3 : nth 3 (Curves.expectedPopulationChanges out) 0 == - 50).
  { subst out. rewrite expectedPopulationChanges_resolved, Hrel.
    rewrite nth_resolvePlannedReleases by exact Hdays.
    rewrite map_app, sum_app. cbn [map]. rewrite sum_cons.
    apply Forall_app in Hothers. destruct Hothers as [Hb Ha].
    rewrite (sum_all_zero (map _ before)) by (apply Forall_map; exact Hb).
    rewrite (sum_all_zero (map _ after)) by (apply Forall_map; exact Ha).
    assert (Hr : releasedOn today 3 release == 50).
    { unfold releasedOn. unfold releaseOffset in Hoff. rewrite Hcount.
      destruct (date release) as [dt|]; [|discriminate].
      injection Hoff as Hoff. rewrite Hoff. cbn.
      destruct (Qeq_bool people 0) eqn:E; [|exact Hpeople].
      apply Qeq_bool_iff in E. rewrite E in Hpeople. discriminate Hpeople. }
    rewrite Hr. ring. }
  split; [exact H3|]. split.
  - intros N HN. subst out. now rewrite totalPopulationByDay_step.
  - subst out. rewrite (totalPopulationByDay_step today inputs 3) by lia.
    cbn [Nat.sub]. rewrite H3. ring.
Qed.

Lemma C5_planned_release_applied_witness :
  let out := getAllBracketCurves 17 releaseOnDayThree in
  nth 3 (Curves.expectedPopulationChanges out) 0 == - 50 /\
  (forall N, (1 <= N < 5)%nat ->
     nth N (Curves.totalPopulationByDay out) 0 ==
     nth (N - 1) (Curves.totalPopulationByDay out) 0 +
     nth N (Curves.expectedPopulationChanges out) 0) /\
  nth 3 (Curves.totalPopulationByDay out) 0 ==
  nth 2 (Curves.totalPopulationByDay out) 0 - 50.
Proof.
  apply (C5_planned_release_applied 17 releaseOnDayThree
           [ {| date := None; count := Some 7 |} ]
           [ {| date := Some 18%Z; count := Some 10 |} ]
           {| date := Some 20%Z; count := Some 50 |} 50).
  - reflexivity.
  - reflexivity.
  - reflexivity.
  - reflexivity.
  - repeat constructor.
  - simpl. lia.
Defined.

(** ** The current date *)

Lemma resolve_all_incomplete today numDays releases :
  forallb incompleteRelease releases = true ->
  resolvePlannedReleases today numDays (Some releases) = repeat 0 numDays.
Proof.
  unfold resolvePlannedReleases. generalize (repeat 0 numDays).
  induction releases as [|r l IH]; intros changes H; cbn [fold_left]; auto.
  cbn [forallb] in H. apply andb_true_iff in H. destruct H as [Hr Hl].
  rewrite applyPlannedRelease_incomplete by exact Hr. now apply IH.
Qed.

(** C7 (as the program has it).  The projection is a function of its
    inputs and of the current date, which it reads to resolve the dates of
    the planned releases: two runs on the same inputs give the same outputs
    when they read the same date, or when the inputs hold no complete
    planned release. *)
Theorem C7_deterministic_given_the_date (today today' : Z)
    (inputs : CurveProjection.Inputs) :
  today = today' \/ noPlannedRelease inputs ->
  getAllBracketCurves today inputs = getAllBracketCurves today' inputs.
Proof.
  intros [->|H]; [reflexivity|].
  assert (Hres : forall t,
            resolvePlannedReleases t (CurveProjection.numDays inputs)
              (CurveProjection.plannedReleases inputs) =
            repeat 0 (CurveProjection.numDays inputs)).
  { intros t. unfold noPlannedRelease in H.
    destruct (CurveProjection.plannedReleases inputs) as [l|].
    - now apply resolve_all_incomplete.
    - reflexivity. }
  unfold getAllBracketCurves. rewrite !Hres. reflexivity.
Qed.

Lemma C7_deterministic_given_the_date_witness :
  getAllBracketCurves 0 incompleteReleases = getAllBracketCurves 1 incompleteReleases.
Proof.
  apply (C7_deterministic_given_the_date 0 1 incompleteReleases).
  right. reflexivity.
Defined.

(** Two runs on the same inputs, one on the eve of a planned release and
    one on its day, return different adjustments. *)
Lemma C7_counterexample :
  getAllBracketCurves 0 releaseTomorrow <> getAllBracketCurves 1 releaseTomorrow.
Proof.
  intros H. apply (f_equal Curves.expectedPopulationChanges) in H.
  rewrite !expectedPopulationChanges_resolved in H.
  vm_compute in H. discriminate H.
Qed.

(** ** Day zero *)

Lemma trajectoryOf_zero today inputs :
  trajectoryOf today inputs 0 =
  (initialState
     (adjustPopulations (CurveProjection.ageGroupPopulations inputs)
        (CurveProjection.populationTurnover inputs))
     (CurveProjection.ageGroupInitiallyInfected inputs),
   sum (adjustPopulations (CurveProjection.ageGroupPopulations inputs)
          (CurveProjection.populationTurnover inputs))).
Proof. reflexivity. Qed.

Lemma length_adjustPopulations populations turnover :
  length (adjustPopulations populations turnover) = length populations.
Proof. apply length_mapi. Qed.

Lemma nth_adjustPopulations populations turnover g :
  (g < length populations)%nat ->
  nth g (adjustPopulations populations turnover) 0 =
  if (g =? ageGroupIndex.index ageGroupIndex.staff)%nat then nth g populations 0
  else nth g populations 0 +
       nth g populations 0 * (turnover * populationAdjustmentRatio).
Proof.
  intros Hg. unfold adjustPopulations. now rewrite (nth_mapi _ _ _ 0 0 Hg).
Qed.

(** The day-zero slice of the grid holds the initial rows. *)
Lemma grid_day_zero today inputs c g :
  (0 < CurveProjection.numDays inputs)%nat ->
  (c < seirIndex.__length)%nat -> (g < ageGroupIndex.__length)%nat ->
  (g < length (CurveProjection.ageGroupPopulations inputs))%nat ->
  (g < length (CurveProjection.ageGroupInitiallyInfected inputs))%nat ->
  ndarray.get3 (Curves.projectionGrid (getAllBracketCurves today inputs)) c 0 g =
  nth c (initialRow
           (nth g (adjustPopulations (CurveProjection.ageGroupPopulations inputs)
                     (CurveProjection.populationTurnover inputs)) 0)
           (nth g (CurveProjection.ageGroupInitiallyInfected inputs) 0)) 0.
Proof.
  intros Hn Hc Hg Hp Hi.
  rewrite grid_is_trajectory, trajectoryOf_zero by auto.
  cbn [fst]. unfold ndarray.get2.
  rewrite initialState_row; auto. now rewrite length_adjustPopulations.
Qed.

(** C9 (as the program has it).  For a group with population 1000 and
    100 initially infected, the day-zero susceptible value is the
    turnover-adjusted population minus 100 minus 100 * rExposedToInfectious,
    where the adjusted population is 1000 for the staff group and
    1000 + 1000 * (turnover * 0.0879) for the others; the day-zero infectious
    value is 100 * 0.57.  With a turnover of zero, and for the staff group,
    the susceptible value is 1000 - 100 - 100 * rExposedToInfectious. *)
Theorem C9_day_zero_seed (today : Z) (inputs : CurveProjection.Inputs) (g : nat) :
  (0 < CurveProjection.numDays inputs)%nat ->
  (g < ageGroupIndex.__length)%nat ->
  (g < length (CurveProjection.ageGroupPopulations inputs))%nat ->
  (g < length (CurveProjection.ageGroupInitiallyInfected inputs))%nat ->
  nth g (CurveProjection.ageGroupPopulations inputs) 0 == 1000 ->
  nth g (CurveProjection.ageGroupInitiallyInfected inputs) 0 == 100 ->
  let grid := Curves.projectionGrid (getAllBracketCurves today inputs) in
  let turnover := CurveProjection.populationTurnover inputs in
  let adjusted :=
    if (g =? ageGroupIndex.index ageGroupIndex.staff)%nat then 1000
    else 1000 + 1000 * (turnover * 0.0879) in
  ndarray.get3 grid (seirIndex.index seirIndex.susceptible) 0 g ==
    adjusted - 100 - 100 * rExposedToInfectious /\
  ndarray.get3 grid (seirIndex.index seirIndex.infectious) 0 g == 100 * 0.57 /\
  (turnover == 0 \/ g = ageGroupIndex.index ageGroupIndex.staff ->
   ndarray.get3 grid (seirIndex.index seirIndex.susceptible) 0 g ==
     1000 - 100 - 100 * rExposedToInfectious).
Proof.
  intros Hn Hg Hp Hi Hpop Hcases grid turnover adjusted.
  subst grid.
  rewrite !grid_day_zero by (auto; unfold seirIndex.__length; simpl; lia).
  rewrite nth_adjustPopulations by auto.
  unfold initialRow. cbn [seirIndex.index nth].
  fold turnover. unfold populationAdjustmentRatio, pInitiallyInfectious.
  assert (Hs : (if (g =? ageGroupIndex.index ageGroupIndex.staff)%nat
                then nth g (CurveProjection.ageGroupPopulations inputs) 0
                else nth g (CurveProjection.ageGroupPopulations inputs) 0 +
                     nth g (CurveProjection.ageGroupPopulations inputs) 0 *
                     (turnover * 0.0879)) == adjusted).
  { subst adjusted. destruct (g =? _)%nat; rewrite Hpop; reflexivity. }
  rewrite Hs, Hcases. split; [reflexivity|]. split; [reflexivity|].
  intros [Ht|Hstaff]; subst adjusted.
  - destruct (g =? _)%nat; [reflexivity|]. rewrite Ht. ring.
  - rewrite Hstaff, Nat.eqb_refl. reflexivity.
Qed.

Lemma C9_day_zero_seed_witness :
  let grid := Curves.projectionGrid (getAllBracketCurves 0 (turnoverInputs 1)) in
  ndarray.get3 grid (seirIndex.index seirIndex.susceptible) 0 2 ==
    (1000 + 1000 * (1 * 0.0879)) - 100 - 100 * rExposedToInfectious /\
  ndarray.get3 grid (seirIndex.index seirIndex.infectious) 0 2 == 100 * 0.57 /\
  (1 == 0 \/ 2%nat = ageGroupIndex.index ageGroupIndex.staff ->
   ndarray.get3 grid (seirIndex.index seirIndex.susceptible) 0 2 ==
     1000 - 100 - 100 * rExposedToInfectious).
Proof.
  apply (C9_day_zero_seed 0 (turnoverInputs 1) 2).
  - simpl; lia.
  - unfold ageGroupIndex.__length; lia.
  - simpl; lia.
  - simpl; lia.
  - reflexivity.
  - reflexivity.
Defined.

(** With a turnover of 1 the age group 20-44, population 1000 and 100
    infected, starts with 937.9 susceptible, not 850. *)
Lemma C9_counterexample :
  let grid := Curves.projectionGrid (getAllBracketCurves 0 (turnoverInputs 1)) in
  nth 2 (CurveProjection.ageGroupPopulations (turnoverInputs 1)) 0 == 1000 /\
  nth 2 (CurveProjection.ageGroupInitiallyInfected (turnoverInputs 1)) 0 == 100 /\
  ~ ndarray.get3 grid (seirIndex.index seirIndex.susceptible) 0 2 ==
      1000 - 100 - 100 * rExposedToInfectious.
Proof.
  cbv zeta. split; [reflexivity|]. split; [reflexivity|].
  intros H. vm_compute in H. discriminate H.
Qed.

(** ** Day zero adds up *)




Lemma Forall2_map_range {A} (R : A -> Q -> Prop) (f : nat -> A) (l : list Q) :
  (forall g, (g < length l)%nat -> R (f g) (nth g l 0)) ->
  forall i, Forall2 R (map (fun k => f (k - i)%nat) (seq i (length l))) l.
Proof.
  induction l as [|x l IH] using rev_ind; intros H i.
  - constructor.
  - rewrite length_app. cbn [length]. rewrite Nat.add_1_r, seq_S, map_app.
    apply Forall2_app.
    + apply IH. intros g Hg. specialize (H g).
      rewrite length_app, app_nth1 in H by auto. apply H. lia.
    + cbn [map]. constructor; [|constructor].
      replace (i + length l - i)%nat with (length l) by lia.
      specialize (H (length l)). rewrite length_app, nth_middle in H.
      apply H. simpl. lia.
Qed.



(** ** Rows of the trajectory *)

Lemma trajectoryOf_shape today inputs d : stateShape (fst (trajectoryOf today inputs d)).
Proof.
  destruct d as [|k].
  - rewrite trajectoryOf_zero. apply initialState_shape.
  - unfold trajectoryOf. rewrite trajectory_step. apply nextState_shape.
Qed.

Lemma trajectoryOf_row_step today inputs k g :
  (g < ageGroupIndex.__length)%nat ->
  nth g (fst (trajectoryOf today inputs (S k))) [] =
  simulateOneDay (dayInputs today inputs (S k) g).
Proof.
  intros Hg. unfold dayInputs. replace (S k - 1)%nat with k by lia.
  unfold trajectoryOf at 1. rewrite trajectory_step. cbn [fst].
  unfold nextState. rewrite (nth_mapi _ _ _ 0 []) by exact Hg. reflexivity.
Qed.

Lemma dayInputs_prior today inputs k g :
  SingleDay.priorSimulation (dayInputs today inputs (S k) g) =
  nth g (fst (trajectoryOf today inputs k)) [].
Proof. unfold dayInputs. replace (S k - 1)%nat with k by lia. reflexivity. Qed.


(** ** Mass balance of the daily transition *)



Lemma simulateOneDay_unfold inputs :
  simulateOneDay inputs =
  simulateOneDayWith inputs
    (if JSNumber.isFinite (newExposures inputs)
     then JSNumber.finiteOrZero (newExposures inputs) else 0).
Proof. reflexivity. Qed.

Lemma simulateOneDayWith_susceptible inputs cSusceptible :
  nth 0 (simulateOneDayWith inputs cSusceptible) 0 =
  Qmax (susceptibleAfterAdjustment inputs + - cSusceptible) 0.
Proof. reflexivity. Qed.




(** ** Non-negative rows stay non-negative *)

Ltac numeral c := let v := eval vm_compute in c in change c with v in *.

Ltac rate_numerals :=
  numeral rExposedToInfectious; numeral rInfectiousToQuarantined;
  numeral rInfectiousToRecovered; numeral rQuarantinedToRecovered;
  numeral rQuarantinedToHospitalized; numeral rHospitalizedToIcu;
  numeral rHospitalRecoveryToRecovered; numeral rIcuToFatality;
  numeral rIcuToHospitalRecovery; numeral (1 / dHospitalizedFatality);
  numeral (1 / dHospitalized); numeral pIcu.

Lemma guard_is_finiteOrZero x :
  (if JSNumber.isFinite x then JSNumber.finiteOrZero x else 0) = JSNumber.finiteOrZero x.
Proof. now destruct x. Qed.

Lemma finiteOrZero_div_nonneg a b :
  0 <= a -> 0 <= b -> 0 <= JSNumber.finiteOrZero (JSNumber.div a b).
Proof.
  intros Ha Hb. unfold JSNumber.div.
  destruct (Qeq_bool b 0) eqn:E.
  - destruct (Qeq_bool a 0); simpl; lra.
  - apply Qeq_bool_neq in E. simpl.
    apply Qle_shift_div_l; lra.
Qed.

Lemma finiteOrZero_add_nonneg x y :
  0 <= JSNumber.finiteOrZero x -> 0 <= JSNumber.finiteOrZero y ->
  0 <= JSNumber.finiteOrZero (JSNumber.add x y).
Proof.
  destruct x as [a|s|], y as [b|t|]; simpl; intros; try lra.
  destruct (Bool.eqb s t); simpl; lra.
Qed.

Lemma Qmult_nonneg4 a b c d : 0 <= a -> 0 <= b -> 0 <= c -> 0 <= d -> 0 <= a * b * c * d.
Proof.
  intros. apply Qmult_le_0_compat; [apply Qmult_le_0_compat;
    [apply Qmult_le_0_compat|]|]; assumption.
Qed.

Lemma newExposures_nonneg inputs :
  0 <= SingleDay.rateOfSpreadCells inputs ->
  0 <= SingleDay.rateOfSpreadDorms inputs ->
  0 <= SingleDay.facilityDormitoryPct inputs <= 1 ->
  0 <= SingleDay.totalInfectious inputs ->
  0 <= SingleDay.totalPopulation inputs ->
  0 <= susceptibleAfterAdjustment inputs ->
  0 <= JSNumber.finiteOrZero (newExposures inputs).
Proof.
  intros Hc Hd Hp Hi Hn Hs. unfold newExposures. cbv zeta.
  assert (Hbc : 0 <= SingleDay.rateOfSpreadCells inputs / dInfectious).
  { apply Qle_shift_div_l; [reflexivity|]. lra. }
  assert (Hbd : 0 <= SingleDay.rateOfSpreadDorms inputs / dInfectious).
  { apply Qle_shift_div_l; [reflexivity|]. lra. }
  destruct (SingleDay.simulateStaff inputs).
  - apply finiteOrZero_div_nonneg; auto.
    apply Qmult_le_0_compat; [apply Qmult_le_0_compat|]; assumption.
  - apply finiteOrZero_add_nonneg; apply finiteOrZero_div_nonneg; auto;
      apply Qmult_nonneg4; auto; lra.
Qed.

Lemma simulateOneDayWith_nonneg inputs cSusceptible :
  length (SingleDay.priorSimulation inputs) = seirIndex.__length ->
  nonneg (SingleDay.priorSimulation inputs) ->
  0 <= SingleDay.pFatalityRate inputs <= 0.7 ->
  0 <= cSusceptible ->
  nonneg (simulateOneDayWith inputs cSusceptible).
Proof.
  intros Hlen Hprior Hf Hc. unfold simulateOneDayWith.
  generalize (susceptibleAfterAdjustment inputs). intros s'.
  unfold seirIndex.__length in Hlen.
  destruct (SingleDay.priorSimulation inputs)
    as [|s [|e [|i [|q [|h [|u [|r [|d [|m [|n [|]]]]]]]]]]]; try discriminate Hlen.
  unfold at_. cbn [nth seirIndex.index].
  set (f := SingleDay.pFatalityRate inputs) in *.
  repeat match goal with
         | H : Forall _ (_ :: _) |- _ => inversion_clear H
         end.
  rate_numerals.
  assert (0 <= f * h) by (apply Qmult_le_0_compat; lra).
  assert (0 <= (0.7 - f) * h) by (apply Qmult_le_0_compat; lra).
  repeat match goal with
         | |- Forall _ (_ :: _) => apply Forall_cons
         | |- Forall _ [] => apply Forall_nil
         end; try apply Q.le_max_r; lra.
Qed.

Lemma simulateOneDay_nonneg inputs :
  length (SingleDay.priorSimulation inputs) = seirIndex.__length ->
  nonneg (SingleDay.priorSimulation inputs) ->
  0 <= SingleDay.pFatalityRate inputs <= 0.7 ->
  0 <= SingleDay.rateOfSpreadCells inputs ->
  0 <= SingleDay.rateOfSpreadDorms inputs ->
  0 <= SingleDay.facilityDormitoryPct inputs <= 1 ->
  0 <= SingleDay.totalInfectious inputs ->
  0 <= SingleDay.totalPopulation inputs ->
  0 <= susceptibleAfterAdjustment inputs ->
  nonneg (simulateOneDay inputs).
Proof.
  intros. rewrite simulateOneDay_unfold, guard_is_finiteOrZero.
  apply simulateOneDayWith_nonneg; auto. now apply newExposures_nonneg.
Qed.

(** ** Non-negative projections *)

Lemma fatality_rates_bounded g :
  (g < ageGroupIndex.__length)%nat ->
  0 <= nth g ageGroupFatalityRates 0 <= 0.7.
Proof.
  unfold ageGroupIndex.__length. intros Hg.
  do 9 (destruct g as [|g]; [cbn [nth ageGroupFatalityRates]; lra|]). lia.
Qed.

Lemma adjustedRateOfSpreadCells_nonneg factor occupancy :
  0 <= occupancy <= 1 -> 0 <= adjustedRateOfSpreadCells factor occupancy.
Proof.
  intros H. unfold adjustedRateOfSpreadCells, rateOfSpreadCellsAdjustment.
  destruct factor; cbn [R0Cells]; lra.
Qed.

Lemma adjustedRateOfSpreadDorms_nonneg factor occupancy :
  0 <= occupancy <= 1 -> 0 <= adjustedRateOfSpreadDorms factor occupancy.
Proof.
  intros H. unfold adjustedRateOfSpreadDorms, rateOfSpreadDormsAdjustment.
  destruct factor; cbn [R0Dorms]; lra.
Qed.

Lemma nonneg_column st c : Forall nonneg st -> nonneg (getColView st c).
Proof.
  intros H. unfold getColView. apply Forall_map.
  eapply Forall_impl; [|exact H]. intros r Hr.
  apply Forall_nth_default; auto. lra.
Qed.

Lemma Forall_filteri_from {A} (P : A -> Prop) keep i (l : list A) :
  Forall P l -> Forall P (filteri_from keep i l).
Proof.
  intros H; revert i; induction H as [|x l Hx Hl IH]; intros i; simpl; auto.
  destruct (keep x i); auto.
Qed.

Lemma totalInfectiousOf_nonneg st : Forall nonneg st -> 0 <= totalInfectiousOf st.
Proof.
  intros H. unfold totalInfectiousOf, getAllValues.
  now apply sum_nonneg, nonneg_column.
Qed.

Lemma totalSusceptibleIncarceratedOf_nonneg st :
  Forall nonneg st -> 0 <= totalSusceptibleIncarceratedOf st.
Proof.
  intros H. unfold totalSusceptibleIncarceratedOf, getAllValues, filteri.
  now apply sum_nonneg, Forall_filteri_from, nonneg_column.
Qed.

Lemma initialRow_nonneg pop cases :
  0 <= cases -> cases + cases * rExposedToInfectious <= pop ->
  nonneg (initialRow pop cases).
Proof.
  intros Hc Hp. unfold initialRow.
  unfold pInitiallyInfectious, pInitiallyQuarantined, pInitiallyHospitalized,
    pInitiallyIcu, pInitiallyHospitalRecovery, pInitiallyDead,
    pInitiallyRecoveredMild, pInitiallyRecoveredHospitalized.
  numeral rExposedToInfectious.
  repeat match goal with
         | |- Forall _ (_ :: _) => apply Forall_cons
         | |- Forall _ [] => apply Forall_nil
         end; lra.
Qed.

Lemma Forall2_nth {A B} (R : A -> B -> Prop) l l' g da db :
  Forall2 R l l' -> (g < length l)%nat -> R (nth g l da) (nth g l' db).
Proof.
  intros H; revert g; induction H as [|x y l l' Hxy Hl IH]; intros [|g] Hg;
    simpl in *; try lia; auto. apply IH; lia.
Qed.

Lemma Forall_of_nth {A} (P : A -> Prop) (l : list A) d :
  (forall g, (g < length l)%nat -> P (nth g l d)) -> Forall P l.
Proof.
  intros H. apply Forall_nth. intros i d' Hi.
  rewrite (nth_indep l d' d Hi). now apply H.
Qed.

Lemma col_as_map (st : ndarray.array2) c :
  length st = ageGroupIndex.__length ->
  map (fun g => ndarray.get2 st g c) (range ageGroupIndex.__length) = getColView st c.
Proof.
  intros H. unfold ageGroupIndex.__length in H.
  destruct st as [|r0 st]; [discriminate|].
  list_of_length st H. reflexivity.
Qed.

Lemma susceptibleIncarcerated_is_aggregate today inputs d :
  (d < CurveProjection.numDays inputs)%nat ->
  susceptibleIncarcerated (Curves.projectionGrid (getAllBracketCurves today inputs)) d =
  totalSusceptibleIncarceratedOf (fst (trajectoryOf today inputs d)).
Proof.
  intros Hd. unfold susceptibleIncarcerated, totalSusceptibleIncarceratedOf, getAllValues.
  rewrite <- col_as_map by apply (proj1 (trajectoryOf_shape today inputs d)).
  do 2 f_equal. apply map_ext_in. intros g Hg.
  apply grid_is_trajectory; auto.
  - unfold seirIndex.__length. simpl. lia.
  - apply in_seq in Hg. lia.
Qed.

Lemma susceptibleAfterAdjustment_nonneg inputs :
  0 <= at_ (SingleDay.priorSimulation inputs) seirIndex.susceptible ->
  0 <= SingleDay.totalSusceptibleIncarcerated inputs ->
  0 <= SingleDay.populationAdjustment inputs \/
  0 <= SingleDay.totalSusceptibleIncarcerated inputs
       + SingleDay.populationAdjustment inputs ->
  0 <= susceptibleAfterAdjustment inputs.
Proof.
  intros Hs Ht Hadj. unfold susceptibleAfterAdjustment.
  set (s := at_ _ _) in *. set (t := SingleDay.totalSusceptibleIncarcerated inputs) in *.
  set (a := SingleDay.populationAdjustment inputs) in *.
  destruct (SingleDay.simulateStaff inputs); [exact Hs|].
  destruct (Qeq_bool t 0) eqn:E; [lra|].
  apply Qeq_bool_neq in E.
  assert (Hpos : 0 < t) by lra.
  assert (Hq : 0 <= s / t) by (apply Qle_shift_div_l; lra).
  destruct Hadj as [Ha|Ha].
  - pose proof (Qmult_le_0_compat _ _ Ha Hq). lra.
  - setoid_replace (s + a * (s / t)) with ((t + a) * (s / t)) by (field; lra).
    now apply Qmult_le_0_compat.
Qed.

Section NonNegative.
Variables (today : Z) (inputs : CurveProjection.Inputs).

Let out := getAllBracketCurves today inputs.
Let numDays := CurveProjection.numDays inputs.

Hypothesis populations_length :
  length (CurveProjection.ageGroupPopulations inputs) = ageGroupIndex.__length.
Hypothesis cases_length :
  length (CurveProjection.ageGroupInitiallyInfected inputs) = ageGroupIndex.__length.
Hypothesis cases_fit :
  Forall2 (fun pop cases => 0 <= cases /\ cases + cases * rExposedToInfectious <= pop)
    (adjustPopulations (CurveProjection.ageGroupPopulations inputs)
       (CurveProjection.populationTurnover inputs))
    (CurveProjection.ageGroupInitiallyInfected inputs).
Hypothesis dormitory_fraction : 0 <= CurveProjection.facilityDormitoryPct inputs <= 1.
Hypothesis occupancy_fraction : 0 <= CurveProjection.facilityOccupancyPct inputs <= 1.
Hypothesis population_never_negative :
  forall d, (d < numDays)%nat -> 0 <= nth d (Curves.totalPopulationByDay out) 0.
Hypothesis releases_fit :
  forall d, (1 <= d < numDays)%nat ->
    0 <= nth d (Curves.expectedPopulationChanges out) 0 \/
    0 <= susceptibleIncarcerated (Curves.projectionGrid out) (d - 1)
         + nth d (Curves.expectedPopulationChanges out) 0.

Lemma initial_rows_nonneg : Forall nonneg (fst (trajectoryOf today inputs 0)).
Proof.
  rewrite trajectoryOf_zero. cbn [fst].
  apply (Forall_of_nth _ _ []). intros g Hg.
  rewrite (proj1 (initialState_shape _ _)) in Hg.
  rewrite initialState_row;
    [| exact Hg | rewrite length_adjustPopulations; lia | lia].
  pose proof (Forall2_nth _ _ _ g 0 0 cases_fit) as H.
  rewrite length_adjustPopulations in H.
  destruct H as [H1 H2]; [lia|].
  now apply initialRow_nonneg.
Qed.

Lemma rows_nonneg d : (d < numDays)%nat -> Forall nonneg (fst (trajectoryOf today inputs d)).
Proof.
  induction d as [|k IH]; intros Hd.
  - exact initial_rows_nonneg.
  - specialize (IH ltac:(lia)).
    apply (Forall_of_nth _ _ []). intros g Hg.
    rewrite (proj1 (trajectoryOf_shape _ _ _)) in Hg.
    rewrite trajectoryOf_row_step by exact Hg.
    assert (Hprior : nonneg (nth g (fst (trajectoryOf today inputs k)) [])).
    { apply Forall_nth_default; auto. }
    assert (Htot : snd (trajectoryOf today inputs k) =
                   nth k (Curves.totalPopulationByDay out) 0).
    { symmetry. apply totalPopulationByDay_is_trajectory. fold numDays. lia. }
    apply simulateOneDay_nonneg; unfold dayInputs, groupInputs;
      replace (S k - 1)%nat with k by lia;
      cbn [SingleDay.priorSimulation SingleDay.pFatalityRate
           SingleDay.rateOfSpreadCells SingleDay.rateOfSpreadDorms
           SingleDay.facilityDormitoryPct SingleDay.totalInfectious
           SingleDay.totalPopulation].
    + apply (shape2_row _ _ _ g (trajectoryOf_shape today inputs k) Hg).
    + exact Hprior.
    + now apply fatality_rates_bounded.
    + now apply adjustedRateOfSpreadCells_nonneg.
    + now apply adjustedRateOfSpreadDorms_nonneg.
    + exact dormitory_fraction.
    + now apply totalInfectiousOf_nonneg.
    + rewrite Htot. apply population_never_negative. lia.
    + apply susceptibleAfterAdjustment_nonneg;
        cbn [SingleDay.priorSimulation SingleDay.totalSusceptibleIncarcerated
             SingleDay.populationAdjustment].
      * unfold at_, getAllValues, getRowView. apply Forall_nth_default; auto. lra.
      * now apply totalSusceptibleIncarceratedOf_nonneg.
      * pose proof (releases_fit (S k) ltac:(lia)) as H.
        replace (S k - 1)%nat with k in H by lia.
        unfold out in H.
        rewrite susceptibleIncarcerated_is_aggregate in H by (fold numDays; lia).
        rewrite expectedPopulationChanges_resolved in H. exact H.
Qed.


End NonNegative.



Ltac by_evaluation := vm_compute; discriminate.



(** ** The model respects the equality of rationals

    A rational has many representations ([1#2], [2#4]); the program's
    numbers are the rationals up to [==].  Every operation of the model maps
    equal numbers to equal numbers, so a state may be replaced by the same
    state in lowest terms at any point. *)

Lemma Qle_bool_Proper a a' b b' :
  a == a' -> b == b' -> Qle_bool a b = Qle_bool a' b'.
Proof.
  intros Ha Hb. apply eq_true_iff_eq. rewrite !Qle_bool_iff, Ha, Hb. reflexivity.
Qed.

Lemma div_Proper a a' b b' :
  a == a' -> b == b' -> numberEq (JSNumber.div a b) (JSNumber.div a' b').
Proof.
  intros Ha Hb. unfold JSNumber.div.
  rewrite (Qeqb_comp b b' Hb 0 0 (Qeq_refl 0)), (Qeqb_comp a a' Ha 0 0 (Qeq_refl 0)).
  rewrite (Qle_bool_Proper 0 0 a a' (Qeq_refl 0) Ha).
  destruct (Qeq_bool b' 0) eqn:E.
  - destruct (Qeq_bool a' 0); constructor.
  - constructor. apply Qeq_bool_neq in E. rewrite Ha, Hb. reflexivity.
Qed.

Lemma add_Proper x x' y y' :
  numberEq x x' -> numberEq y y' -> numberEq (JSNumber.add x y) (JSNumber.add x' y').
Proof.
  intros Hx Hy. destruct Hx, Hy; simpl; try constructor.
  - now apply Qplus_comp.
  - destruct (Bool.eqb s s0); constructor.
Qed.

Lemma guard_Proper x x' :
  numberEq x x' ->
  (if JSNumber.isFinite x then JSNumber.finiteOrZero x else 0) ==
  (if JSNumber.isFinite x' then JSNumber.finiteOrZero x' else 0).
Proof. intros H. destruct H; simpl; auto; reflexivity. Qed.

Lemma nth_rowEq (r r' : list Q) c : rowEq r r' -> nth c r 0 == nth c r' 0.
Proof.
  intros H; revert c; induction H as [|x y l l' Hxy Hl IH]; intros [|c];
    simpl; auto; reflexivity.
Qed.

Lemma nth_stateEq (st st' : ndarray.array2) g :
  stateEq st st' -> rowEq (nth g st []) (nth g st' []).
Proof.
  intros H; revert g; induction H as [|x y l l' Hxy Hl IH]; intros [|g];
    simpl; auto.
Qed.

Lemma susceptibleAfterAdjustment_Proper a b :
  inputsEq a b -> susceptibleAfterAdjustment a == susceptibleAfterAdjustment b.
Proof.
  intros [Hd Hf Ha Hp Hc Hr Hs Hi Hn Ht]. unfold susceptibleAfterAdjustment, at_.
  rewrite Hs, (Qeqb_comp _ _ Ht 0 0 (Qeq_refl 0)).
  pose proof (nth_rowEq _ _ (seirIndex.index seirIndex.susceptible) Hp) as H0.
  destruct (SingleDay.simulateStaff b); [exact H0|].
  destruct (Qeq_bool _ 0) eqn:E.
  - rewrite H0. reflexivity.
  - apply Qeq_bool_neq in E. rewrite H0, Ha, Ht. reflexivity.
Qed.

Lemma newExposures_Proper a b :
  inputsEq a b -> numberEq (newExposures a) (newExposures b).
Proof.
  intros H. pose proof (susceptibleAfterAdjustment_Proper a b H) as Hs'.
  destruct H as [Hd Hf Ha Hp Hc Hr Hs Hi Hn Ht]. unfold newExposures. cbv zeta.
  rewrite Hs. destruct (SingleDay.simulateStaff b).
  - apply div_Proper; auto. rewrite Hc, Hi, Hs'. reflexivity.
  - apply add_Proper; apply div_Proper; auto.
    + rewrite Hd, Hc, Hi, Hs'. reflexivity.
    + rewrite Hd, Hr, Hi, Hs'. reflexivity.
Qed.

Lemma simulateOneDayWith_Proper a b c c' :
  inputsEq a b -> c == c' ->
  rowEq (simulateOneDayWith a c) (simulateOneDayWith b c').
Proof.
  intros H Hcs. pose proof (susceptibleAfterAdjustment_Proper a b H) as Hs'.
  destruct H as [Hd Hf Ha Hp Hc Hr Hs Hi Hn Ht]. unfold simulateOneDayWith. cbv zeta.
  unfold at_.
  pose proof (fun k => nth_rowEq _ _ k Hp) as Hk.
  repeat match goal with
         | |- Forall2 _ (_ :: _) (_ :: _) => apply Forall2_cons
         | |- Forall2 _ [] [] => apply Forall2_nil
         end;
    rewrite ?Hs', ?Hcs, ?Hf, ?(Hk 1%nat), ?(Hk 2%nat), ?(Hk 3%nat), ?(Hk 4%nat),
      ?(Hk 5%nat), ?(Hk 6%nat), ?(Hk 7%nat), ?(Hk 8%nat), ?(Hk 9%nat);
    reflexivity.
Qed.

Lemma simulateOneDay_Proper a b :
  inputsEq a b -> rowEq (simulateOneDay a) (simulateOneDay b).
Proof.
  intros H. rewrite !simulateOneDay_unfold.
  apply simulateOneDayWith_Proper; auto.
  apply guard_Proper. now apply newExposures_Proper.
Qed.

Lemma getColView_Proper st st' c :
  stateEq st st' -> rowEq (getColView st c) (getColView st' c).
Proof.
  intros H. unfold getColView. induction H as [|r r' l l' Hr Hl IH]; simpl.
  - constructor.
  - constructor; auto. now apply nth_rowEq.
Qed.

Lemma filteri_from_Proper keep i (l l' : list Q) :
  (forall x y k, keep x k = keep y k) ->
  rowEq l l' -> rowEq (filteri_from keep i l) (filteri_from keep i l').
Proof.
  intros Hk H; revert i; induction H as [|x y l l' Hxy Hl IH]; intros i; simpl.
  - constructor.
  - rewrite (Hk x y i). destruct (keep y i); auto.
Qed.

Lemma totalInfectiousOf_Proper st st' :
  stateEq st st' -> totalInfectiousOf st == totalInfectiousOf st'.
Proof.
  intros H. unfold totalInfectiousOf, getAllValues.
  now apply sum_Proper, getColView_Proper.
Qed.

Lemma totalSusceptibleIncarceratedOf_Proper st st' :
  stateEq st st' ->
  totalSusceptibleIncarceratedOf st == totalSusceptibleIncarceratedOf st'.
Proof.
  intros H. unfold totalSusceptibleIncarceratedOf, getAllValues, filteri.
  apply sum_Proper, filteri_from_Proper; auto. now apply getColView_Proper.
Qed.

Lemma Forall2_mapi_from {A B} (R : B -> B -> Prop) (f f' : A -> nat -> B) i l :
  (forall x k, R (f x k) (f' x k)) -> Forall2 R (mapi_from f i l) (mapi_from f' i l).
Proof.
  intros H; revert i; induction l as [|x l IH]; intros i; simpl; auto.
Qed.

Lemma nextState_Proper dorm rc rd adj adj' total total' st st' :
  adj == adj' -> total == total' -> stateEq st st' ->
  stateEq (nextState dorm rc rd adj total st) (nextState dorm rc rd adj' total' st').
Proof.
  intros Ha Ht Hs. unfold nextState, mapi.
  apply Forall2_mapi_from. intros rate g.
  apply simulateOneDay_Proper. unfold groupInputs.
  constructor; cbn; try reflexivity; auto.
  - unfold getAllValues, getRowView. now apply nth_stateEq.
  - now apply totalInfectiousOf_Proper.
  - now apply totalSusceptibleIncarceratedOf_Proper.
Qed.

Lemma reduce_rowEq r r' : rowEq r r' -> rowEq r (map Qred r').
Proof.
  induction 1 as [|x y l l' Hxy Hl IH]; simpl; constructor; auto.
  now rewrite Qred_correct.
Qed.

Lemma reduce_stateEq st st' : stateEq st st' -> stateEq st (reduceState st').
Proof.
  induction 1 as [|x y l l' Hxy Hl IH]; simpl; constructor; auto.
  now apply reduce_rowEq.
Qed.

Lemma rowEq_refl r : rowEq r r.
Proof. induction r; constructor; auto. reflexivity. Qed.

Lemma stateEq_refl st : stateEq st st.
Proof. induction st; constructor; auto using rowEq_refl. Qed.

Lemma trajectory_reduced dorm rc rd changes state0 total0 d :
  stateEq (fst (trajectory dorm rc rd changes state0 total0 d))
          (fst (trajectoryReduced dorm rc rd changes state0 total0 d)) /\
  snd (trajectory dorm rc rd changes state0 total0 d) ==
  snd (trajectoryReduced dorm rc rd changes state0 total0 d).
Proof.
  induction d as [|k [IHs IHt]].
  - cbn. split.
    + apply reduce_stateEq, stateEq_refl.
    + now rewrite Qred_correct.
  - cbn [trajectory trajectoryReduced].
    destruct (trajectory dorm rc rd changes state0 total0 k) as [st t].
    destruct (trajectoryReduced dorm rc rd changes state0 total0 k) as [st' t'].
    cbn [fst snd] in *. split.
    + apply reduce_stateEq. apply nextState_Proper; auto. reflexivity.
    + rewrite Qred_correct, IHt. reflexivity.
Qed.

Lemma grid_is_reduced_trajectory today inputs d c g :
  (d < CurveProjection.numDays inputs)%nat ->
  (c < seirIndex.__length)%nat -> (g < ageGroupIndex.__length)%nat ->
  ndarray.get3 (Curves.projectionGrid (getAllBracketCurves today inputs)) c d g ==
  ndarray.get2 (fst (trajectoryReducedOf today inputs d)) g c.
Proof.
  intros Hd Hc Hg. rewrite grid_is_trajectory by auto.
  unfold ndarray.get2. apply nth_rowEq, nth_stateEq.
  apply trajectory_reduced.
Qed.

(** ** The staff group and the housing split *)

Lemma staff_transition_reads a b :
  SingleDay.simulateStaff a = true -> SingleDay.simulateStaff b = true ->
  SingleDay.priorSimulation a = SingleDay.priorSimulation b ->
  SingleDay.pFatalityRate a = SingleDay.pFatalityRate b ->
  SingleDay.rateOfSpreadCells a = SingleDay.rateOfSpreadCells b ->
  SingleDay.totalInfectious a = SingleDay.totalInfectious b ->
  SingleDay.totalPopulation a = SingleDay.totalPopulation b ->
  simulateOneDay a = simulateOneDay b.
Proof.
  intros Ha Hb Hp Hf Hc Hi Hn.
  unfold simulateOneDay, simulateOneDayWith, newExposures, susceptibleAfterAdjustment.
  rewrite Ha, Hb, Hp, Hf, Hc, Hi, Hn. reflexivity.
Qed.

Lemma staff_transition_ignores_housing inputs dorm :
  SingleDay.simulateStaff inputs = true ->
  simulateOneDay (withHousing dorm inputs) = simulateOneDay inputs.
Proof. intros H. apply staff_transition_reads; auto. Qed.

Lemma infectious_reads_row a b :
  SingleDay.priorSimulation a = SingleDay.priorSimulation b ->
  nth (seirIndex.index seirIndex.infectious) (simulateOneDay a) 0 =
  nth (seirIndex.index seirIndex.infectious) (simulateOneDay b) 0.
Proof.
  intros H. unfold simulateOneDay, simulateOneDayWith.
  cbn [nth seirIndex.index]. now rewrite H.
Qed.

Lemma map_mapi_from {A B C} (h : B -> C) (f : A -> nat -> B) i l :
  map h (mapi_from f i l) = mapi_from (fun x k => h (f x k)) i l.
Proof.
  revert i; induction l as [|x l IH]; intros i; simpl; auto. now rewrite IH.
Qed.

(** The infectious column of the next state is a function of the state:
    neither the housing split nor the aggregates enter it. *)
Lemma totalInfectiousOf_nextState dorm dorm' rc rc' rd rd' adj adj' total total' st :
  totalInfectiousOf (nextState dorm rc rd adj total st) =
  totalInfectiousOf (nextState dorm' rc' rd' adj' total' st).
Proof.
  unfold totalInfectiousOf, getAllValues, getColView, nextState, mapi.
  rewrite !map_mapi_from. apply (f_equal sum).
  apply mapi_from_ext. intros rate g _. now apply infectious_reads_row.
Qed.

Section TwoHousingSplits.
Variables (today : Z) (inputs : CurveProjection.Inputs) (dorm' : Q).

Let inputs' := withDormitoryPct dorm' inputs.
Let staff := ageGroupIndex.index ageGroupIndex.staff.

Lemma same_total k :
  snd (trajectoryOf today inputs' k) = snd (trajectoryOf today inputs k).
Proof.
  induction k as [|k IH]; [reflexivity|].
  rewrite !trajectoryOf_total_step, IH. reflexivity.
Qed.

Lemma same_day_zero : fst (trajectoryOf today inputs' 0) = fst (trajectoryOf today inputs 0).
Proof. reflexivity. Qed.

Lemma same_staff_row_step k :
  nth staff (fst (trajectoryOf today inputs' k)) [] =
    nth staff (fst (trajectoryOf today inputs k)) [] ->
  totalInfectiousOf (fst (trajectoryOf today inputs' k)) =
    totalInfectiousOf (fst (trajectoryOf today inputs k)) ->
  nth staff (fst (trajectoryOf today inputs' (S k))) [] =
    nth staff (fst (trajectoryOf today inputs (S k))) [].
Proof.
  intros Hrow Hinf.
  rewrite !trajectoryOf_row_step by (unfold staff, ageGroupIndex.__length; simpl; lia).
  apply staff_transition_reads; unfold dayInputs, groupInputs;
    replace (S k - 1)%nat with k by lia;
    cbn [SingleDay.simulateStaff SingleDay.priorSimulation SingleDay.pFatalityRate
         SingleDay.rateOfSpreadCells SingleDay.totalInfectious SingleDay.totalPopulation];
    auto.
  apply same_total.
Qed.

Lemma same_infectious_step k :
  fst (trajectoryOf today inputs' k) = fst (trajectoryOf today inputs k) ->
  totalInfectiousOf (fst (trajectoryOf today inputs' (S k))) =
  totalInfectiousOf (fst (trajectoryOf today inputs (S k))).
Proof.
  intros H. unfold trajectoryOf in *. rewrite !trajectory_step. cbn [fst].
  rewrite H. apply totalInfectiousOf_nextState.
Qed.

Lemma same_staff_row d :
  (d <= 2)%nat ->
  nth staff (fst (trajectoryOf today inputs' d)) [] =
  nth staff (fst (trajectoryOf today inputs d)) [].
Proof.
  intros Hd.
  assert (H0 : nth staff (fst (trajectoryOf today inputs' 0)) [] =
               nth staff (fst (trajectoryOf today inputs 0)) [])
    by now rewrite same_day_zero.
  assert (H1 : nth staff (fst (trajectoryOf today inputs' 1)) [] =
               nth staff (fst (trajectoryOf today inputs 1)) []).
  { apply same_staff_row_step; [exact H0 | now rewrite same_day_zero]. }
  destruct d as [|[|[|d]]]; [exact H0 | exact H1 | | lia].
  apply same_staff_row_step; [exact H1 |].
  apply same_infectious_step, same_day_zero.
Qed.

End TwoHousingSplits.

(** C3 (as the program has it).  The staff transition does not read the
    dormitory fraction: with the staff flag set, [simulateOneDay] returns
    the same row for any dormitory fraction.  Two runs that differ only in
    the dormitory fraction give the staff group identical values on days 0,
    1 and 2; from day 3 on the staff exposure reads a total infectious count
    to which the other groups contribute through their housing split. *)
Theorem C3_staff_and_the_housing_split :
  (forall (row : SingleDay.Inputs) (dorm : Q),
     SingleDay.simulateStaff row = true ->
     simulateOneDay (withHousing dorm row) = simulateOneDay row) /\
  (forall (today : Z) (inputs : CurveProjection.Inputs) (dorm : Q) (c d : nat),
     (d <= 2)%nat -> (d < CurveProjection.numDays inputs)%nat ->
     (c < seirIndex.__length)%nat ->
     ndarray.get3
       (Curves.projectionGrid (getAllBracketCurves today (withDormitoryPct dorm inputs)))
       c d (ageGroupIndex.index ageGroupIndex.staff) =
     ndarray.get3 (Curves.projectionGrid (getAllBracketCurves today inputs))
       c d (ageGroupIndex.index ageGroupIndex.staff)).
Proof.
  split.
  - intros row dorm H. now apply staff_transition_ignores_housing.
  - intros today inputs dorm c d Hd Hn Hc.
    rewrite !grid_is_trajectory
      by (auto; unfold ageGroupIndex.__length; simpl; lia).
    unfold ndarray.get2. now rewrite same_staff_row.
Qed.

Lemma C3_staff_and_the_housing_split_witness :
  ndarray.get3
    (Curves.projectionGrid (getAllBracketCurves 0 (withDormitoryPct 1 (housingInputs 0))))
    (seirIndex.index seirIndex.susceptible) 2 (ageGroupIndex.index ageGroupIndex.staff) =
  ndarray.get3 (Curves.projectionGrid (getAllBracketCurves 0 (housingInputs 0)))
    (seirIndex.index seirIndex.susceptible) 2 (ageGroupIndex.index ageGroupIndex.staff).
Proof.
  apply (proj2 C3_staff_and_the_housing_split 0%Z (housingInputs 0) 1 0%nat 2%nat).
  - lia.
  - simpl; lia.
  - unfold seirIndex.__length; lia.
Defined.

(** With a dormitory fraction of 0 and of 1, and all else equal, the staff
    group has different susceptible values on day 3. *)
Lemma C3_counterexample :
  withDormitoryPct 1 (housingInputs 0) = housingInputs 1 /\
  ~ ndarray.get3 (Curves.projectionGrid (getAllBracketCurves 0 (housingInputs 0)))
      (seirIndex.index seirIndex.susceptible) 3
      (ageGroupIndex.index ageGroupIndex.staff) ==
    ndarray.get3 (Curves.projectionGrid (getAllBracketCurves 0 (housingInputs 1)))
      (seirIndex.index seirIndex.susceptible) 3
      (ageGroupIndex.index ageGroupIndex.staff).
Proof.
  split; [reflexivity|]. intros H.
  rewrite !grid_is_reduced_trajectory in H
    by (unfold seirIndex.__length, ageGroupIndex.__length; simpl; lia).
  vm_compute in H. discriminate H.
Qed.

(* ================================================================== *)
(** * Further properties of the projection *)

(** ** Shapes of the outputs *)

(** X1.  The grid returned by [getAllBracketCurves] has the shape
    [10, numDays, 9], the adjustments have [numDays] entries, and the total
    population has [numDays] entries, one when [numDays] is zero (the
    day-zero total is written before the loop). *)
Theorem output_shapes (today : Z) (inputs : CurveProjection.Inputs) :
  let out := getAllBracketCurves today inputs in
  let numDays := CurveProjection.numDays inputs in
  ndarray.shape3 (Curves.projectionGrid out) seirIndex.__length numDays
    ageGroupIndex.__length /\
  length (Curves.totalPopulationByDay out) = Nat.max numDays 1 /\
  length (Curves.expectedPopulationChanges out) = numDays.
Proof.
  intros out numDays. subst out.
  split; [|split]; [| |apply length_resolvePlannedReleases].
  - unfold getAllBracketCurves. cbn [Curves.projectionGrid]. fold numDays.
    destruct (Nat.eq_dec numDays 0) as [E|E].
    + rewrite E. cbn [Nat.sub seq fold_left Loop.projectionGrid].
      apply updateProjectionDay_shape, shape3_zeros3.
    + match goal with
      | |- context [fold_left (simulateDay ?dorm ?rc ?rd ?ch) _
                      {| Loop.singleDayState := ?s0;
                         Loop.totalPopulationByDay := array_set _ 0 ?t0;
                         Loop.projectionGrid := updateProjectionDay ?g0 0 _ |}] =>
          pose proof (loopInvariant_end dorm rc rd ch s0 t0 numDays g0) as H
      end.
      destruct H as (_ & _ & _ & _ & H & _);
        [apply initialState_shape | apply shape3_zeros3 | lia | exact H].
  - unfold getAllBracketCurves. cbn [Curves.totalPopulationByDay]. fold numDays.
    destruct (Nat.eq_dec numDays 0) as [E|E].
    + rewrite E. reflexivity.
    + match goal with
      | |- context [fold_left (simulateDay ?dorm ?rc ?rd ?ch) _
                      {| Loop.singleDayState := ?s0;
                         Loop.totalPopulationByDay := array_set _ 0 ?t0;
                         Loop.projectionGrid := updateProjectionDay ?g0 0 _ |}] =>
          pose proof (loopInvariant_end dorm rc rd ch s0 t0 numDays g0) as H
      end.
      destruct H as (_ & _ & H & _);
        [apply initialState_shape | apply shape3_zeros3 | lia |].
      rewrite H. lia.
Qed.

(** ** The total population in closed form *)

Lemma trajectoryOf_total_closed today inputs d :
  snd (trajectoryOf today inputs d) ==
  sum (adjustPopulations (CurveProjection.ageGroupPopulations inputs)
         (CurveProjection.populationTurnover inputs))
  + sum (map (fun day =>
                nth day (resolvePlannedReleases today (CurveProjection.numDays inputs)
                           (CurveProjection.plannedReleases inputs)) 0)
           (seq 1 d)).
Proof.
  induction d as [|k IH].
  - rewrite trajectoryOf_zero. cbn [snd seq map]. rewrite sum_nil. ring.
  - rewrite trajectoryOf_total_step, IH, seq_S, map_app, sum_app.
    cbn [map]. rewrite sum_cons, sum_nil. cbn [Nat.add]. ring.
Qed.

(** X2.  The total population of day [d] is the sum of the
    turnover-adjusted populations plus the adjustments of the days 1 to
    [d]; the adjustment recorded for day 0 is never added. *)
Theorem total_population_closed_form (today : Z) (inputs : CurveProjection.Inputs)
    (d : nat) :
  (d < CurveProjection.numDays inputs)%nat ->
  let out := getAllBracketCurves today inputs in
  nth d (Curves.totalPopulationByDay out) 0 ==
  sum (adjustPopulations (CurveProjection.ageGroupPopulations inputs)
         (CurveProjection.populationTurnover inputs))
  + sum (map (fun day => nth day (Curves.expectedPopulationChanges out) 0) (seq 1 d)).
Proof.
  intros Hd out. subst out.
  rewrite totalPopulationByDay_is_trajectory by exact Hd.
  apply trajectoryOf_total_closed.
Qed.

Lemma total_population_closed_form_witness :
  let out := getAllBracketCurves 17 releaseOnDayThree in
  nth 4 (Curves.totalPopulationByDay out) 0 ==
  sum (adjustPopulations (CurveProjection.ageGroupPopulations releaseOnDayThree)
         (CurveProjection.populationTurnover releaseOnDayThree))
  + sum (map (fun day => nth day (Curves.expectedPopulationChanges out) 0) (seq 1 4)).
Proof.
  apply (total_population_closed_form 17 releaseOnDayThree 4). simpl; lia.
Defined.

(** ** Releases dated on or before the current day *)

Lemma agreeFromDayOne_refl changes : agreeFromDayOne changes changes.
Proof. split; auto. Qed.

Lemma applyPlannedRelease_agree today changes changes' r :
  agreeFromDayOne changes changes' ->
  agreeFromDayOne (applyPlannedRelease today changes r)
                  (applyPlannedRelease today changes' r).
Proof.
  intros [Hl H]. unfold applyPlannedRelease.
  destruct (count r) as [c|], (date r) as [dt|]; try (split; assumption).
  destruct (Qeq_bool c 0); [split; assumption|].
  rewrite <- Hl. set (k := differenceInCalendarDays dt today).
  destruct (k <? Z.of_nat (length changes))%Z eqn:E1; [|split; assumption].
  destruct (Z.leb_spec 0 k) as [E2|E2]; [|split; assumption].
  apply Z.ltb_lt in E1. split.
  - now rewrite !length_replace_at.
  - intros d Hd. destruct (Nat.eq_dec (Z.to_nat k) d) as [<-|Hne].
    + rewrite !nth_replace_at_eq by lia. now rewrite (H _ Hd).
    + rewrite !nth_replace_at_neq by exact Hne. now apply H.
Qed.

Lemma applyPlannedRelease_today today changes r :
  releaseOffset today r = Some 0%Z ->
  agreeFromDayOne changes (applyPlannedRelease today changes r).
Proof.
  unfold releaseOffset, applyPlannedRelease. intros Ho.
  destruct (date r) as [dt|]; [|discriminate]. injection Ho as Ho.
  destruct (count r) as [c|]; [|apply agreeFromDayOne_refl].
  destruct (Qeq_bool c 0); [apply agreeFromDayOne_refl|].
  rewrite Ho. destruct (_ <? _)%Z; [|apply agreeFromDayOne_refl].
  cbn [Z.leb Z.compare Z.to_nat]. split.
  - now rewrite length_replace_at.
  - intros d Hd. rewrite nth_replace_at_neq by lia. reflexivity.
Qed.

Lemma fold_applyPlannedRelease_agree today releases changes changes' :
  agreeFromDayOne changes changes' ->
  agreeFromDayOne (fold_left (applyPlannedRelease today) releases changes)
                  (fold_left (applyPlannedRelease today) releases changes').
Proof.
  revert changes changes'; induction releases as [|r l IH]; intros c c' H;
    cbn [fold_left]; auto using applyPlannedRelease_agree.
Qed.

Lemma resolve_release_today today numDays before r after :
  releaseOffset today r = Some 0%Z ->
  agreeFromDayOne
    (resolvePlannedReleases today numDays (Some (before ++ after)))
    (resolvePlannedReleases today numDays (Some (before ++ r :: after))).
Proof.
  intros Ho. unfold resolvePlannedReleases. rewrite !fold_left_app.
  cbn [fold_left]. apply fold_applyPlannedRelease_agree.
  now apply applyPlannedRelease_today.
Qed.

Lemma trajectory_agree dorm rc rd changes changes' state0 total0 d :
  agreeFromDayOne changes changes' ->
  trajectory dorm rc rd changes state0 total0 d =
  trajectory dorm rc rd changes' state0 total0 d.
Proof.
  intros [_ H]. induction d as [|k IH]; [reflexivity|].
  rewrite !trajectory_step, IH, (H (S k)) by lia. reflexivity.
Qed.

(** X3.  A complete release dated on the current day is recorded in entry
    0 of the adjustments and applied nowhere: the loop starts at day 1, so
    the grid and the total population are those of the run without it. *)
Theorem release_dated_today_is_not_applied (today : Z)
    (inputs : CurveProjection.Inputs) (before after : list PlannedRelease)
    (release : PlannedRelease) :
  releaseOffset today release = Some 0%Z ->
  let without :=
    getAllBracketCurves today (withPlannedReleases (Some (before ++ after)) inputs) in
  let with_ :=
    getAllBracketCurves today
      (withPlannedReleases (Some (before ++ release :: after)) inputs) in
  let numDays := CurveProjection.numDays inputs in
  (forall c d g, (c < seirIndex.__length)%nat -> (d < numDays)%nat ->
     (g < ageGroupIndex.__length)%nat ->
     ndarray.get3 (Curves.projectionGrid with_) c d g =
     ndarray.get3 (Curves.projectionGrid without) c d g) /\
  (forall d, (d < numDays)%nat ->
     nth d (Curves.totalPopulationByDay with_) 0 =
     nth d (Curves.totalPopulationByDay without) 0) /\
  ((0 < numDays)%nat ->
   nth 0 (Curves.expectedPopulationChanges with_) 0 ==
   nth 0 (Curves.expectedPopulationChanges without) 0 - releasedOn today 0 release).
Proof.
  intros Ho without with_ numDays. subst without with_.
  assert (Htraj : forall d,
            trajectoryOf today
              (withPlannedReleases (Some (before ++ release :: after)) inputs) d =
            trajectoryOf today (withPlannedReleases (Some (before ++ after)) inputs) d).
  { intros d. unfold trajectoryOf, withPlannedReleases.
    cbn [CurveProjection.facilityDormitoryPct CurveProjection.ageGroupPopulations
         CurveProjection.numDays CurveProjection.ageGroupInitiallyInfected
         CurveProjection.facilityOccupancyPct CurveProjection.rateOfSpreadFactor
         CurveProjection.plannedReleases CurveProjection.populationTurnover].
    symmetry. apply trajectory_agree. now apply resolve_release_today. }
  split; [|split].
  - intros c d g Hc Hd Hg. rewrite !grid_is_trajectory by assumption.
    now rewrite Htraj.
  - intros d Hd. rewrite !totalPopulationByDay_is_trajectory by assumption.
    now rewrite Htraj.
  - intros Hn. rewrite !expectedPopulationChanges_resolved.
    unfold withPlannedReleases.
    cbn [CurveProjection.numDays CurveProjection.plannedReleases].
    rewrite !nth_resolvePlannedReleases by exact Hn.
    rewrite !map_app, !sum_app. cbn [map]. rewrite sum_cons. ring.
Qed.

Lemma release_dated_today_is_not_applied_witness :
  let release := {| date := Some 17%Z; count := Some 25 |} in
  let without :=
    getAllBracketCurves 17 (withPlannedReleases (Some ([] ++ [])) releaseOnDayThree) in
  let with_ :=
    getAllBracketCurves 17
      (withPlannedReleases (Some ([] ++ release :: [])) releaseOnDayThree) in
  (forall c d g, (c < seirIndex.__length)%nat -> (d < 5)%nat ->
     (g < ageGroupIndex.__length)%nat ->
     ndarray.get3 (Curves.projectionGrid with_) c d g =
     ndarray.get3 (Curves.projectionGrid without) c d g) /\
  (forall d, (d < 5)%nat ->
     nth d (Curves.totalPopulationByDay with_) 0 =
     nth d (Curves.totalPopulationByDay without) 0) /\
  ((0 < 5)%nat ->
   nth 0 (Curves.expectedPopulationChanges with_) 0 ==
   nth 0 (Curves.expectedPopulationChanges without) 0 - releasedOn 17 0 release).
Proof.
  apply (release_dated_today_is_not_applied 17 releaseOnDayThree [] []
           {| date := Some 17%Z; count := Some 25 |}).
  reflexivity.
Defined.

Lemma applyPlannedRelease_past today changes r offset :
  releaseOffset today r = Some offset -> (offset < 0)%Z ->
  applyPlannedRelease today changes r = changes.
Proof.
  unfold releaseOffset, applyPlannedRelease. intros Ho Hneg.
  destruct (date r) as [dt|]; [|discriminate]. injection Ho as Ho.
  destruct (count r) as [c|]; auto. destruct (Qeq_bool c 0); auto.
  rewrite Ho. destruct (_ <? _)%Z; auto.
  destruct (Z.leb_spec 0 offset); auto. lia.
Qed.

(** X4.  A release dated before the current day changes nothing: the
    outputs are those of the run without it. *)
Theorem release_dated_in_the_past_is_dropped (today : Z)
    (inputs : CurveProjection.Inputs) (before after : list PlannedRelease)
    (release : PlannedRelease) (offset : Z) :
  releaseOffset today release = Some offset -> (offset < 0)%Z ->
  getAllBracketCurves today
    (withPlannedReleases (Some (before ++ release :: after)) inputs) =
  getAllBracketCurves today (withPlannedReleases (Some (before ++ after)) inputs).
Proof.
  intros Ho Hneg. unfold getAllBracketCurves, withPlannedReleases.
  cbn [CurveProjection.facilityDormitoryPct CurveProjection.ageGroupPopulations
       CurveProjection.numDays CurveProjection.ageGroupInitiallyInfected
       CurveProjection.facilityOccupancyPct CurveProjection.rateOfSpreadFactor
       CurveProjection.plannedReleases CurveProjection.populationTurnover].
  rewrite (resolve_skip today _ before release after); [reflexivity|].
  intros changes _. now apply (applyPlannedRelease_past today changes release offset).
Qed.

Lemma release_dated_in_the_past_is_dropped_witness :
  getAllBracketCurves 17
    (withPlannedReleases
       (Some ([ {| date := Some 18%Z; count := Some 10 |} ]
              ++ {| date := Some 12%Z; count := Some 30 |} :: []))
       releaseOnDayThree) =
  getAllBracketCurves 17
    (withPlannedReleases
       (Some ([ {| date := Some 18%Z; count := Some 10 |} ] ++ []))
       releaseOnDayThree).
Proof.
  apply (release_dated_in_the_past_is_dropped 17 releaseOnDayThree
           [ {| date := Some 18%Z; count := Some 10 |} ] []
           {| date := Some 12%Z; count := Some 30 |} (-5)%Z).
  - reflexivity.
  - lia.
Defined.

(** ** The order and the total of the planned releases *)

Lemma sum_Permutation l l' : Permutation l l' -> sum l == sum l'.
Proof.
  induction 1 as [| x l l' _ IH | x y l | l l' l'' _ IH1 _ IH2].
  - reflexivity.
  - rewrite !sum_cons, IH. reflexivity.
  - rewrite !sum_cons. ring.
  - now rewrite IH1.
Qed.

(** X5.  The order of the planned releases does not matter: two lists
    with the same entries resolve to equal adjustments on every day. *)
Theorem planned_releases_order_irrelevant (today : Z) (numDays : nat)
    (releases releases' : list PlannedRelease) (d : nat) :
  Permutation releases releases' -> (d < numDays)%nat ->
  nth d (resolvePlannedReleases today numDays (Some releases)) 0 ==
  nth d (resolvePlannedReleases today numDays (Some releases')) 0.
Proof.
  intros Hp Hd. rewrite !nth_resolvePlannedReleases by exact Hd.
  apply Qopp_comp, sum_Permutation, Permutation_map, Hp.
Qed.

Lemma planned_releases_order_irrelevant_witness :
  nth 1 (resolvePlannedReleases 17 5
           (Some [ {| date := Some 18%Z; count := Some 10 |};
                   {| date := Some 20%Z; count := Some 50 |} ])) 0 ==
  nth 1 (resolvePlannedReleases 17 5
           (Some [ {| date := Some 20%Z; count := Some 50 |};
                   {| date := Some 18%Z; count := Some 10 |} ])) 0.
Proof.
  apply (planned_releases_order_irrelevant 17 5).
  - apply perm_swap.
  - lia.
Defined.

Lemma sum_map_ext {A} (f g : A -> Q) l :
  (forall x, f x == g x) -> sum (map f l) == sum (map g l).
Proof.
  intros H. induction l as [|x l IH]; cbn [map]; [reflexivity|].
  rewrite !sum_cons, H, IH. reflexivity.
Qed.

Lemma sum_map_plus {A} (f g : A -> Q) l :
  sum (map (fun x => f x + g x) l) == sum (map f l) + sum (map g l).
Proof.
  induction l as [|x l IH]; cbn [map].
  - rewrite !sum_nil. ring.
  - rewrite !sum_cons, IH. ring.
Qed.

Lemma sum_map_zero {A} (l : list A) : sum (map (fun _ => 0) l) == 0.
Proof.
  induction l as [|x l IH]; cbn [map]; [reflexivity|].
  rewrite sum_cons, IH. ring.
Qed.

Lemma sum_map_opp {A} (f : A -> Q) l : sum (map (fun x => - f x) l) == - sum (map f l).
Proof.
  induction l as [|x l IH]; cbn [map].
  - rewrite !sum_nil. ring.
  - rewrite !sum_cons, IH. ring.
Qed.

(** Summing over the days first or over the releases first. *)
Lemma sum_days_releases {A} (f : nat -> A -> Q) (days : list nat) (l : list A) :
  sum (map (fun d => sum (map (f d) l)) days) ==
  sum (map (fun r => sum (map (fun d => f d r) days)) l).
Proof.
  induction l as [|r l IH]; cbn [map].
  - rewrite sum_nil. apply sum_map_zero.
  - rewrite sum_cons, <- IH, <- sum_map_plus.
    apply sum_map_ext. intros d. apply sum_cons.
Qed.

Lemma releasedOn_over_the_horizon today numDays r :
  sum (map (fun d => releasedOn today d r) (seq 0 numDays)) ==
  releasedWithin today numDays r.
Proof.
  unfold releasedOn, releasedWithin.
  destruct (count r) as [c|], (date r) as [dt|]; try apply sum_map_zero.
  destruct (Qeq_bool c 0); [apply sum_map_zero|].
  cbv zeta. set (k := differenceInCalendarDays dt today).
  induction numDays as [|n IH].
  - cbn [seq map]. rewrite sum_nil.
    destruct (Z.leb_spec 0 k); cbn [andb]; [|reflexivity].
    destruct (Z.ltb_spec k (Z.of_nat 0)); [lia|reflexivity].
  - rewrite seq_S, map_app, sum_app, IH. cbn [map Nat.add].
    rewrite sum_cons, sum_nil.
    destruct (Z.leb_spec 0 k); cbn [andb].
    + destruct (Z.ltb_spec k (Z.of_nat n)), (Z.ltb_spec k (Z.of_nat (S n))),
        (Z.eqb_spec k (Z.of_nat n)); try lia; ring.
    + destruct (Z.eqb_spec k (Z.of_nat n)); [lia|ring].
Qed.

(** X6.  The adjustments of the whole horizon add up to minus the
    counts of the complete releases whose date falls on a day of the
    horizon: within the horizon no release is lost or counted twice. *)
Theorem adjustments_total (today : Z) (numDays : nat) (releases : list PlannedRelease) :
  sum (resolvePlannedReleases today numDays (Some releases)) ==
  - sum (map (releasedWithin today numDays) releases).
Proof.
  set (changes := resolvePlannedReleases today numDays (Some releases)).
  assert (Hlen : length changes = numDays) by apply length_resolvePlannedReleases.
  assert (H : rowEq (map (fun d => - sum (map (releasedOn today d) releases))
                       (seq 0 numDays)) changes).
  { rewrite <- Hlen.
    rewrite (map_ext _ (fun k => - sum (map (releasedOn today (k - 0)) releases)))
      by (intros; now rewrite Nat.sub_0_r).
    apply (Forall2_map_range Qeq
             (fun d => - sum (map (releasedOn today d) releases))).
    intros g Hg. symmetry. apply nth_resolvePlannedReleases. lia. }
  rewrite <- (sum_Proper _ _ H), sum_map_opp.
  apply Qopp_comp. rewrite sum_days_releases.
  apply sum_map_ext. intros r. apply releasedOn_over_the_horizon.
Qed.

(** ** The staff group on release days *)




(** ** One-way compartments *)

Lemma nonNegativeRun_rows today inputs d :
  nonNegativeRun today inputs -> (d < CurveProjection.numDays inputs)%nat ->
  Forall nonneg (fst (trajectoryOf today inputs d)).
Proof.
  intros [H1 H2 H3 H4 H5 H6 H7] Hd. now apply rows_nonneg.
Qed.

Lemma nonNegativeRun_prior today inputs k g :
  nonNegativeRun today inputs -> (S k < CurveProjection.numDays inputs)%nat ->
  nonneg (SingleDay.priorSimulation (dayInputs today inputs (S k) g)).
Proof.
  intros H Hk. rewrite dayInputs_prior.
  apply Forall_nth_default; [|constructor].
  apply nonNegativeRun_rows; auto. lia.
Qed.

(** In a non-negative run the adjusted susceptible value and the new
    exposures of every group are non-negative. *)
Lemma nonNegativeRun_exposures today inputs k g :
  nonNegativeRun today inputs -> (S k < CurveProjection.numDays inputs)%nat ->
  0 <= susceptibleAfterAdjustment (dayInputs today inputs (S k) g) /\
  0 <= JSNumber.finiteOrZero (newExposures (dayInputs today inputs (S k) g)).
Proof.
  intros H Hk.
  pose proof (nonNegativeRun_rows today inputs k H ltac:(lia)) as Hrows.
  pose proof (nonNegativeRun_prior today inputs k g H Hk) as Hprior.
  destruct H as [H1 H2 H3 H4 H5 H6 H7].
  assert (Hs : 0 <= susceptibleAfterAdjustment (dayInputs today inputs (S k) g)).
  { apply susceptibleAfterAdjustment_nonneg.
    - unfold at_. apply Forall_nth_default; auto. lra.
    - unfold dayInputs, groupInputs. cbn [SingleDay.totalSusceptibleIncarcerated].
      replace (S k - 1)%nat with k by lia.
      now apply totalSusceptibleIncarceratedOf_nonneg.
    - specialize (H7 (S k) ltac:(lia)).
      replace (S k - 1)%nat with k in H7 by lia.
      rewrite susceptibleIncarcerated_is_aggregate in H7 by lia.
      rewrite expectedPopulationChanges_resolved in H7.
      unfold dayInputs, groupInputs.
      cbn [SingleDay.totalSusceptibleIncarcerated SingleDay.populationAdjustment].
      replace (S k - 1)%nat with k by lia. exact H7. }
  split; [exact Hs|].
  apply newExposures_nonneg; auto; unfold dayInputs, groupInputs;
    cbn [SingleDay.rateOfSpreadCells SingleDay.rateOfSpreadDorms
         SingleDay.facilityDormitoryPct SingleDay.totalInfectious
         SingleDay.totalPopulation];
    replace (S k - 1)%nat with k by lia.
  - now apply adjustedRateOfSpreadCells_nonneg.
  - now apply adjustedRateOfSpreadDorms_nonneg.
  - now apply totalInfectiousOf_nonneg.
  - rewrite <- totalPopulationByDay_is_trajectory by lia. apply H6. lia.
Qed.



Ltac tenthInfected_is_non_negative :=
  constructor;
  [ reflexivity
  | reflexivity
  | repeat (apply Forall2_cons; [split; by_evaluation|]); apply Forall2_nil
  | split; by_evaluation
  | split; by_evaluation
  | let d := fresh "d" in let Hd := fresh "Hd" in
    intros d Hd; destruct d as [|[|d]];
    [by_evaluation | by_evaluation | simpl in Hd; lia]
  | let d := fresh "d" in let Hd := fresh "Hd" in
    intros d Hd; destruct d as [|[|d]];
    [lia | left; by_evaluation | simpl in Hd; lia] ].


Lemma susceptibleAfterAdjustment_release inputs :
  0 <= at_ (SingleDay.priorSimulation inputs) seirIndex.susceptible ->
  0 <= SingleDay.totalSusceptibleIncarcerated inputs ->
  SingleDay.populationAdjustment inputs <= 0 ->
  susceptibleAfterAdjustment inputs <=
  at_ (SingleDay.priorSimulation inputs) seirIndex.susceptible.
Proof.
  intros Hs Ht Ha. unfold susceptibleAfterAdjustment.
  set (s := at_ _ _) in *. set (t := SingleDay.totalSusceptibleIncarcerated inputs) in *.
  set (a := SingleDay.populationAdjustment inputs) in *.
  destruct (SingleDay.simulateStaff inputs); [lra|].
  destruct (Qeq_bool t 0) eqn:E; [lra|].
  apply Qeq_bool_neq in E.
  assert (Hq : 0 <= s / t) by (apply Qle_shift_div_l; lra).
  assert (0 <= (- a) * (s / t)) by (apply Qmult_le_0_compat; lra).
  lra.
Qed.

(** X9.  In a non-negative run the susceptible value of a group does not
    grow on a day whose adjustment is zero or a release. *)
Theorem susceptible_never_grows (today : Z) (inputs : CurveProjection.Inputs)
    (day g : nat) :
  nonNegativeRun today inputs ->
  (1 <= day < CurveProjection.numDays inputs)%nat ->
  (g < ageGroupIndex.__length)%nat ->
  let out := getAllBracketCurves today inputs in
  nth day (Curves.expectedPopulationChanges out) 0 <= 0 ->
  ndarray.get3 (Curves.projectionGrid out) (seirIndex.index seirIndex.susceptible) day g
  <= ndarray.get3 (Curves.projectionGrid out)
       (seirIndex.index seirIndex.susceptible) (day - 1) g.
Proof.
  intros Hrun Hday Hg out Hadj. subst out.
  destruct day as [|k]; [lia|]. replace (S k - 1)%nat with k by lia.
  rewrite !grid_is_trajectory by (auto; unfold seirIndex.__length; simpl; lia).
  unfold ndarray.get2. rewrite trajectoryOf_row_step by exact Hg.
  destruct (nonNegativeRun_exposures today inputs k g Hrun ltac:(lia)) as [Hs Hc].
  pose proof (nonNegativeRun_prior today inputs k g Hrun ltac:(lia)) as Hprior.
  pose proof (nonNegativeRun_rows today inputs k Hrun ltac:(lia)) as Hrows.
  rewrite <- (dayInputs_prior today inputs k g).
  set (inp := dayInputs today inputs (S k) g) in *.
  rewrite simulateOneDay_unfold, guard_is_finiteOrZero.
  cbn [seirIndex.index]. rewrite simulateOneDayWith_susceptible.
  assert (H0 : 0 <= at_ (SingleDay.priorSimulation inp) seirIndex.susceptible).
  { unfold at_. apply Forall_nth_default; auto. lra. }
  assert (Hle : susceptibleAfterAdjustment inp <=
                at_ (SingleDay.priorSimulation inp) seirIndex.susceptible).
  { apply susceptibleAfterAdjustment_release; [exact H0 | |].
    - subst inp. unfold dayInputs, groupInputs.
      cbn [SingleDay.totalSusceptibleIncarcerated].
      replace (S k - 1)%nat with k by lia.
      now apply totalSusceptibleIncarceratedOf_nonneg.
    - subst inp. unfold dayInputs, groupInputs.
      cbn [SingleDay.populationAdjustment].
      rewrite expectedPopulationChanges_resolved in Hadj. exact Hadj. }
  change (nth 0 (SingleDay.priorSimulation inp) 0)
    with (at_ (SingleDay.priorSimulation inp) seirIndex.susceptible).
  apply Q.max_lub; lra.
Qed.

Lemma susceptible_never_grows_witness :
  let out := getAllBracketCurves 0 tenthInfected in
  ndarray.get3 (Curves.projectionGrid out) (seirIndex.index seirIndex.susceptible) 1 2
  <= ndarray.get3 (Curves.projectionGrid out)
       (seirIndex.index seirIndex.susceptible) (1 - 1) 2.
Proof.
  apply (susceptible_never_grows 0 tenthInfected 1 2).
  - tenthInfected_is_non_negative.
  - simpl; lia.
  - unfold ageGroupIndex.__length; lia.
  - by_evaluation.
Defined.

(** ** A facility without infection *)

Lemma rowEq_sym r r' : rowEq r r' -> rowEq r' r.
Proof. induction 1; constructor; auto. now symmetry. Qed.

Lemma rowEq_trans r r' r'' : rowEq r r' -> rowEq r' r'' -> rowEq r r''.
Proof.
  intros H; revert r''; induction H as [|x y l l' Hxy Hl IH]; intros r'' H';
    inversion H'; subst; constructor; auto. etransitivity; eauto.
Qed.

Lemma initialRow_without_cases pop cases :
  cases == 0 -> rowEq (initialRow pop cases) (steadyRow pop).
Proof.
  intros H. unfold initialRow, steadyRow.
  repeat match goal with
         | |- Forall2 _ (_ :: _) (_ :: _) => apply Forall2_cons
         | |- Forall2 _ [] [] => apply Forall2_nil
         end; rewrite H; ring.
Qed.

Lemma div_zero_numerator a b :
  a == 0 ->
  JSNumber.div a b = (if Qeq_bool b 0 then JSNumber.NaN else JSNumber.Finite (a / b)) /\
  (Qeq_bool b 0 = false -> a / b == 0).
Proof.
  intros Ha. unfold JSNumber.div. split.
  - destruct (Qeq_bool b 0); [|reflexivity].
    apply Qeq_bool_iff in Ha. now rewrite Ha.
  - intros E. apply Qeq_bool_neq in E. rewrite Ha. field. exact E.
Qed.

Lemma newExposures_without_infection inputs :
  SingleDay.totalInfectious inputs = 0 ->
  JSNumber.finiteOrZero (newExposures inputs) == 0.
Proof.
  intros H. unfold newExposures. cbv zeta. rewrite H.
  set (n := SingleDay.totalPopulation inputs).
  destruct (SingleDay.simulateStaff inputs).
  - match goal with
    | |- context [JSNumber.div ?a n] =>
        destruct (div_zero_numerator a n ltac:(ring)) as [-> Hq]
    end.
    destruct (Qeq_bool n 0); [reflexivity|]. now apply Hq.
  - match goal with
    | |- context [JSNumber.add (JSNumber.div ?a n) (JSNumber.div ?b n)] =>
        destruct (div_zero_numerator a n ltac:(ring)) as [-> Ha];
        destruct (div_zero_numerator b n ltac:(ring)) as [-> Hb]
    end.
    destruct (Qeq_bool n 0); [reflexivity|].
    cbn [JSNumber.add JSNumber.finiteOrZero]. rewrite Ha, Hb by reflexivity. ring.
Qed.

Lemma steady_transition inputs pop :
  SingleDay.priorSimulation inputs = steadyRow pop ->
  SingleDay.totalInfectious inputs = 0 ->
  SingleDay.populationAdjustment inputs = 0 ->
  0 <= pop ->
  rowEq (simulateOneDay inputs) (steadyRow pop).
Proof.
  intros Hprior Hinf Hadj Hpop.
  rewrite simulateOneDay_unfold, guard_is_finiteOrZero.
  pose proof (newExposures_without_infection inputs Hinf) as Hc.
  assert (Hs : susceptibleAfterAdjustment inputs == pop).
  { unfold susceptibleAfterAdjustment. rewrite Hprior, Hadj.
    unfold at_, steadyRow. cbn [nth seirIndex.index].
    destruct (SingleDay.simulateStaff inputs); [reflexivity|].
    destruct (Qeq_bool _ 0); ring. }
  unfold simulateOneDayWith. cbv zeta. rewrite Hprior.
  unfold at_, steadyRow. cbn [nth seirIndex.index].
  repeat match goal with
         | |- Forall2 _ (_ :: _) (_ :: _) => apply Forall2_cons
         | |- Forall2 _ [] [] => apply Forall2_nil
         end; rewrite ?Hs, ?Hc; try ring.
  rewrite Q.max_l; [ring|lra].
Qed.

Lemma sum_zero_column (st : ndarray.array2) c :
  Forall (fun r => nth c r 0 == 0) st -> sum (getColView st c) == 0.
Proof.
  intros H. apply sum_all_zero. unfold getColView. now apply Forall_map.
Qed.

Section WithoutInfection.
Variables (today : Z) (inputs : CurveProjection.Inputs).

Let populations :=
  adjustPopulations (CurveProjection.ageGroupPopulations inputs)
    (CurveProjection.populationTurnover inputs).
Let changes :=
  resolvePlannedReleases today (CurveProjection.numDays inputs)
    (CurveProjection.plannedReleases inputs).

Hypothesis populations_length :
  length (CurveProjection.ageGroupPopulations inputs) = ageGroupIndex.__length.
Hypothesis cases_length :
  length (CurveProjection.ageGroupInitiallyInfected inputs) = ageGroupIndex.__length.
Hypothesis nobody_infected :
  Forall (fun cases => cases == 0) (CurveProjection.ageGroupInitiallyInfected inputs).
Hypothesis populations_nonneg : Forall (fun pop => 0 <= pop) populations.
Hypothesis no_adjustment :
  forall d, (1 <= d < CurveProjection.numDays inputs)%nat -> nth d changes 0 == 0.

Lemma steady_rows d g :
  (d < CurveProjection.numDays inputs)%nat -> (g < ageGroupIndex.__length)%nat ->
  rowEq (nth g (fst (trajectoryOf today inputs d)) [])
        (steadyRow (nth g populations 0)).
Proof.
  revert g. induction d as [|k IH]; intros g Hd Hg.
  - rewrite trajectoryOf_zero. cbn [fst].
    rewrite initialState_row;
      [| exact Hg | rewrite length_adjustPopulations; lia | lia].
    apply initialRow_without_cases.
    apply (Forall_nth_default _ _ g 0 nobody_infected). reflexivity.
  - rewrite trajectoryOf_row_step by exact Hg.
    set (inp := dayInputs today inputs (S k) g).
    set (pop := nth g populations 0).
    assert (Hpop : 0 <= pop).
    { apply Forall_nth_default; [exact populations_nonneg | lra]. }
    apply (rowEq_trans _ (simulateOneDay (withoutInfection (steadyRow pop) inp))).
    + apply simulateOneDay_Proper.
      constructor; unfold withoutInfection, inp, dayInputs, groupInputs;
        cbn [SingleDay.facilityDormitoryPct SingleDay.pFatalityRate
             SingleDay.populationAdjustment SingleDay.priorSimulation
             SingleDay.rateOfSpreadCells SingleDay.rateOfSpreadDorms
             SingleDay.simulateStaff SingleDay.totalInfectious
             SingleDay.totalPopulation SingleDay.totalSusceptibleIncarcerated];
        replace (S k - 1)%nat with k by lia; try reflexivity.
      * apply no_adjustment. lia.
      * unfold getAllValues, getRowView. apply IH; auto. lia.
      * unfold totalInfectiousOf, getAllValues. apply sum_zero_column.
        apply (Forall_of_nth _ _ []). intros j Hj.
        rewrite (proj1 (trajectoryOf_shape _ _ _)) in Hj.
        exact (nth_rowEq _ _ 2 (IH j ltac:(lia) Hj)).
    + now apply steady_transition.
Qed.

End WithoutInfection.

(** X10.  Without infection nothing moves: when every initially-infected
    count is zero, the adjusted populations are non-negative and no
    adjustment falls on a day after day zero, every group keeps its adjusted
    population as susceptible on every day and every other compartment stays
    at zero. *)
Theorem zero_infection_steady_state (today : Z) (inputs : CurveProjection.Inputs)
    (d g : nat) :
  let out := getAllBracketCurves today inputs in
  let populations :=
    adjustPopulations (CurveProjection.ageGroupPopulations inputs)
      (CurveProjection.populationTurnover inputs) in
  length (CurveProjection.ageGroupPopulations inputs) = ageGroupIndex.__length ->
  length (CurveProjection.ageGroupInitiallyInfected inputs) = ageGroupIndex.__length ->
  Forall (fun cases => cases == 0) (CurveProjection.ageGroupInitiallyInfected inputs) ->
  Forall (fun pop => 0 <= pop) populations ->
  (forall day, (1 <= day < CurveProjection.numDays inputs)%nat ->
     nth day (Curves.expectedPopulationChanges out) 0 == 0) ->
  (d < CurveProjection.numDays inputs)%nat -> (g < ageGroupIndex.__length)%nat ->
  ndarray.get3 (Curves.projectionGrid out) (seirIndex.index seirIndex.susceptible) d g
    == nth g populations 0 /\
  (forall c, (1 <= c < seirIndex.__length)%nat ->
     ndarray.get3 (Curves.projectionGrid out) c d g == 0).
Proof.
  intros out populations Hp Hc Hzero Hpop Hadj Hd Hg. subst out.
  pose proof (steady_rows today inputs Hp Hc Hzero Hpop Hadj d g Hd Hg) as H.
  split.
  - rewrite grid_is_trajectory by (auto; unfold seirIndex.__length; simpl; lia).
    unfold ndarray.get2. exact (nth_rowEq _ _ 0 H).
  - intros c Hcr. rewrite grid_is_trajectory by (auto; lia).
    unfold ndarray.get2. rewrite (nth_rowEq _ _ c H).
    unfold seirIndex.__length in Hcr. unfold steadyRow.
    do 10 (destruct c as [|c]; [try lia; reflexivity|]). lia.
Qed.

Lemma zero_infection_steady_state_witness :
  let out := getAllBracketCurves 0 nobodyInfected in
  let populations :=
    adjustPopulations (CurveProjection.ageGroupPopulations nobodyInfected)
      (CurveProjection.populationTurnover nobodyInfected) in
  ndarray.get3 (Curves.projectionGrid out) (seirIndex.index seirIndex.susceptible) 2 2
    == nth 2 populations 0 /\
  (forall c, (1 <= c < seirIndex.__length)%nat ->
     ndarray.get3 (Curves.projectionGrid out) c 2 2 == 0).
Proof.
  apply (zero_infection_steady_state 0 nobodyInfected 2 2).
  - reflexivity.
  - reflexivity.
  - repeat (apply Forall_cons; [reflexivity|]). apply Forall_nil.
  - repeat (apply Forall_cons; [by_evaluation|]). apply Forall_nil.
  - intros day Hday. rewrite expectedPopulationChanges_resolved.
    destruct day as [|[|[|day]]];
      [lia | reflexivity | reflexivity | simpl in Hday; lia].
  - simpl; lia.
  - unfold ageGroupIndex.__length; lia.
Defined.

(** ** Transmission intensities between the floor and the base value *)



(** ** Groups without an entry in both input lists *)

Lemma nth_repeat_row (row : list Q) rows g :
  nth g (repeat row rows) [] = row \/ nth g (repeat row rows) [] = [].
Proof.
  revert g; induction rows as [|n IH]; intros [|g]; cbn [repeat nth]; auto.
Qed.

Lemma nth_zeros2 rows cols g c : nth c (nth g (ndarray.zeros2 rows cols) []) 0 = 0.
Proof.
  unfold ndarray.zeros2.
  destruct (nth_repeat_row (repeat 0 cols) rows g) as [-> | ->].
  - apply nth_repeat_zero.
  - now destruct c.
Qed.

(** X12.  The initial state is filled from the populations and the
    infected counts zipped together: a group that lacks an entry in either
    list starts with all its ten values at zero, whatever its population. *)
Theorem group_without_both_entries_starts_empty (today : Z)
    (inputs : CurveProjection.Inputs) (c g : nat) :
  (0 < CurveProjection.numDays inputs)%nat ->
  (c < seirIndex.__length)%nat -> (g < ageGroupIndex.__length)%nat ->
  (length (CurveProjection.ageGroupPopulations inputs) <= g)%nat \/
  (length (CurveProjection.ageGroupInitiallyInfected inputs) <= g)%nat ->
  ndarray.get3 (Curves.projectionGrid (getAllBracketCurves today inputs)) c 0 g = 0.
Proof.
  intros Hn Hc Hg Hshort.
  rewrite grid_is_trajectory, trajectoryOf_zero by auto.
  cbn [fst]. unfold ndarray.get2, initialState, forEach.
  rewrite forEach_assignInitialState_row by (auto; apply shape2_zeros2).
  unfold zip. rewrite length_combine, length_adjustPopulations.
  replace ((0 <=? g) && (g <? 0 + Nat.min _ _))%nat with false.
  - apply nth_zeros2.
  - symmetry. apply andb_false_iff. right. apply Nat.ltb_ge. lia.
Qed.

Lemma group_without_both_entries_starts_empty_witness :
  ndarray.get3 (Curves.projectionGrid (getAllBracketCurves 0 shortInfectedList))
    (seirIndex.index seirIndex.susceptible) 0 4 = 0.
Proof.
  apply (group_without_both_entries_starts_empty 0 shortInfectedList).
  - simpl; lia.
  - unfold seirIndex.__length; simpl; lia.
  - unfold ageGroupIndex.__length; lia.
  - right. simpl; lia.
Defined.

(** ** Turnover and the day-zero total *)



(** ** The total population and the population in the grid *)








(** ** The loop turn updates the state in place *)

(** X15.  The loop turn overwrites the daily state row by row, and still
    every group's new row is the transition of its row of the day before
    with the aggregates of the day before: no group reads a row that the
    same turn has already overwritten. *)
Theorem groups_are_updated_from_the_prior_state
    (dorm rc rd : Q) (changes : list Q) (st : Loop.State) (day g : nat) :
  stateShape (Loop.singleDayState st) ->
  (g < ageGroupIndex.__length)%nat ->
  nth g (Loop.singleDayState (simulateDay dorm rc rd changes st day)) [] =
  simulateOneDay
    (groupInputs dorm rc rd (nth day changes 0)
       (nth (day - 1) (Loop.totalPopulationByDay st) 0)
       (Loop.singleDayState st) (nth g ageGroupFatalityRates 0) g).
Proof.
  intros Hs Hg. rewrite simulateDay_state by exact Hs.
  unfold nextState. now rewrite (nth_mapi _ _ _ 0 []) by exact Hg.
Qed.

Lemma groups_are_updated_from_the_prior_state_witness :
  nth 8 (Loop.singleDayState (simulateDay 0.5 3 5 [0; 0; 0] eveOfDayOne 1)) [] =
  simulateOneDay
    (groupInputs 0.5 3 5 (nth 1 [0; 0; 0] 0)
       (nth (1 - 1) (Loop.totalPopulationByDay eveOfDayOne) 0)
       (Loop.singleDayState eveOfDayOne) (nth 8 ageGroupFatalityRates 0) 8).
Proof.
  apply (groups_are_updated_from_the_prior_state 0.5 3 5 [0; 0; 0] eveOfDayOne 1 8).
  - apply initialState_shape.
  - unfold ageGroupIndex.__length; lia.
Defined.

(** ** Writing a day into the grid *)

(** X16.  [updateProjectionDay(day, data)] on a grid of shape
    [10, numDays, 9] and a day of the horizon sets the cell (c, day, g) to
    data(g, c) for every compartment and group, leaves the cells of every
    other day as they are, and keeps the shape. *)
Theorem updateProjectionDay_writes_one_day (numDays day : nat)
    (data : ndarray.array2) (grid : ndarray.array3) (c d g : nat) :
  ndarray.shape3 grid seirIndex.__length numDays ageGroupIndex.__length ->
  (day < numDays)%nat ->
  (c < seirIndex.__length)%nat -> (g < ageGroupIndex.__length)%nat ->
  ndarray.get3 (updateProjectionDay grid day data) c day g = ndarray.get2 data g c /\
  (d <> day ->
   ndarray.get3 (updateProjectionDay grid day data) c d g = ndarray.get3 grid c d g) /\
  ndarray.shape3 (updateProjectionDay grid day data) seirIndex.__length numDays
    ageGroupIndex.__length.
Proof.
  intros Hs Hday Hc Hg. split; [|split].
  - rewrite (updateProjectionDay_get numDays day data Hday grid) by assumption.
    now rewrite Nat.eqb_refl.
  - intros Hne.
    rewrite (updateProjectionDay_get numDays day data Hday grid) by assumption.
    now apply Nat.eqb_neq in Hne as ->.
  - now apply updateProjectionDay_shape.
Qed.

Lemma updateProjectionDay_writes_one_day_witness :
  let grid := Loop.projectionGrid eveOfDayOne in
  let data := Loop.singleDayState eveOfDayOne in
  ndarray.get3 (updateProjectionDay grid 1 data) 2 1 2 = ndarray.get2 data 2 2 /\
  (0%nat <> 1%nat ->
   ndarray.get3 (updateProjectionDay grid 1 data) 2 0 2 = ndarray.get3 grid 2 0 2) /\
  ndarray.shape3 (updateProjectionDay grid 1 data) seirIndex.__length 3
    ageGroupIndex.__length.
Proof.
  apply (updateProjectionDay_writes_one_day 3 1).
  - apply updateProjectionDay_shape, shape3_zeros3.
  - lia.
  - unfold seirIndex.__length; lia.
  - unfold ageGroupIndex.__length; lia.
Defined.

(** ** Where the initially infected start *)



(** ** The projection scales with the head counts *)

Section Scaling.
Variable k : Q.
Hypothesis k_positive : 0 < k.

















(** The inputs of the trajectory scale with the configuration. *)













End Scaling.


